(** * API gateway of lista-compras-microservices: circuit breaker, proxy,
      aggregated endpoints

    Shallow embedding of [api-gateway/server.js] (class [APIGateway]).
    The JavaScript [Map] held in [this.circuitBreakers] is a [gmap] from
    service names to breaker records; every method that mutates a record in
    place returns the updated map.  [Date.now()] is an explicit argument. *)

From Stdlib Require Import Ascii.
From stdpp Require Import base numbers strings pretty list gmap.

Local Open Scope Z_scope.
Set Warnings "-register-all".

(** ** JSON payloads and the JavaScript operators applied to them *)

Module Json.

(** JavaScript numbers are IEEE doubles.  The gateway only adds them, tests
    them for truthiness, converts to them and rounds one total to two
    decimals, so they are kept behind this interface; the one law is
    [Number((0).toFixed(2)) === 0]. *)
Class JsNumber (num : Type) : Type := {
  num_of_Z : Z → num;
  num_nan : num;
  num_add : num → num → num;
  num_truthy : num → bool;
  num_of_string : string → num;
  num_to_string : num → string;
  num_toFixed2 : num → num;
  num_toFixed2_zero : num_toFixed2 (num_of_Z 0) = num_of_Z 0;
}.

(** A parsed JSON document ([response.data], [req.body]) or an object literal
    handed to [res.json]. *)
Inductive json (num : Type) : Type :=
  | JNull
  | JBool (b : bool)
  | JNum (n : num)
  | JStr (s : string)
  | JArr (l : list (json num))
  | JObj (fields : list (string * json num)).

Arguments JNull {num}.
Arguments JBool {num} b.
Arguments JNum {num} n.
Arguments JStr {num} s.
Arguments JArr {num} l.
Arguments JObj {num} fields.

(** A JavaScript value met by the gateway: [None] is [undefined]. *)
Abbreviation jsval num := (option (json num)).

Section Operators.
Context {num : Type} `{JsNumber num}.

(** Own property of a parsed object. *)
Fixpoint field (k : string) (fields : list (string * json num)) : jsval num :=
  match fields with
  | [] => None
  | (k', v) :: rest => if String.eqb k k' then Some v else field k rest
  end.

(** [v.k] for the data properties the gateway reads ([data], [summary],
    [totalItems], ...): a [TypeError] (outer [None]) on [undefined] and
    [null], [undefined] on anything that is not an object with that key. *)
Definition getProp (v : jsval num) (k : string) : option (jsval num) :=
  match v with
  | None | Some JNull => None
  | Some (JObj fields) => Some (field k fields)
  | Some _ => Some None
  end.

(** Truthiness, as used by [||], [!] and [?:]. *)
Definition truthy (v : jsval num) : bool :=
  match v with
  | None | Some JNull => false
  | Some (JBool b) => b
  | Some (JNum n) => num_truthy n
  | Some (JStr s) => negb (String.eqb s "")
  | Some (JArr _) | Some (JObj _) => true
  end.

(** [a || b]. *)
Definition jsOr (a b : jsval num) : jsval num := if truthy a then a else b.

(** [Array.isArray]. *)
Definition isArray (v : jsval num) : bool :=
  match v with Some (JArr _) => true | _ => false end.

(** [String(v)] for a parsed value; arrays join their elements with a
    comma, [null] elements giving the empty string. *)
Fixpoint toString (v : json num) : string :=
  match v with
  | JNull => "null"
  | JBool true => "true"
  | JBool false => "false"
  | JNum n => num_to_string n
  | JStr s => s
  | JArr l =>
      (fix join (l : list (json num)) : string :=
         match l with
         | [] => ""
         | [x] => match x with JNull => "" | _ => toString x end
         | x :: rest =>
             (match x with JNull => "" | _ => toString x end) +:+ "," +:+ join rest
         end) l
  | JObj _ => "[object Object]"
  end.

(** [Number(v)]. *)
Definition toNumber (v : jsval num) : num :=
  match v with
  | None => num_nan
  | Some JNull => num_of_Z 0
  | Some (JBool true) => num_of_Z 1
  | Some (JBool false) => num_of_Z 0
  | Some (JNum n) => n
  | Some (JStr s) => num_of_string s
  | Some (JArr l) => num_of_string (toString (JArr l))
  | Some (JObj _) => num_nan
  end.

(** [Number(v) || 0]. *)
Definition numberOrZero (v : jsval num) : num :=
  let n := toNumber v in if num_truthy n then n else num_of_Z 0.

(** First [n] bytes of a string ([s.slice(0, n)] on ASCII text). *)
Fixpoint stringTake (n : nat) (s : string) : string :=
  match n, s with
  | S n', String c s' => String c (stringTake n' s')
  | _, _ => ""
  end.

(** [v.slice(0, n)]: arrays and strings have the method, [undefined] and
    [null] raise on the property read, anything else raises on the call. *)
Definition slice0 (n : nat) (v : jsval num) : option (json num) :=
  match v with
  | Some (JArr l) => Some (JArr (take n l))
  | Some (JStr s) => Some (JStr (stringTake n s))
  | _ => None
  end.

(** [v.slice ? v.slice(0, n) : v], for a [v] that is not [undefined]: an
    object whose own [slice] field is truthy raises on the call. *)
Definition sliceIfAny (n : nat) (v : json num) : option (json num) :=
  match v with
  | JNull => None
  | JArr _ | JStr _ => slice0 n (Some v)
  | JObj fields => if truthy (field "slice" fields) then None else Some v
  | JBool _ | JNum _ => Some v
  end.

End Operators.

(** The integer-valued numbers with [NaN] ([None]): an instance of the
    interface on which the definitions below can be run. *)
Module IntegerNumbers.

Definition digit (c : ascii) : option Z :=
  let n := Z.of_nat (nat_of_ascii c) in
  if (48 <=? n) && (n <=? 57) then Some (n - 48) else None.

Fixpoint digits (acc : Z) (s : string) : option Z :=
  match s with
  | EmptyString => Some acc
  | String c s' => d ← digit c; digits (10 * acc + d) s'
  end.

(** [Number(s)] on optionally signed decimal integers; [Number('')] is 0. *)
Definition parse (s : string) : option Z :=
  match s with
  | EmptyString => Some 0
  | String c s' =>
      if Ascii.eqb c "-"%char then
        match s' with EmptyString => None | _ => Z.opp <$> digits 0 s' end
      else digits 0 s
  end.

#[export] Instance int_JsNumber : JsNumber (option Z) := {|
  num_of_Z := Some;
  num_nan := None;
  num_add := λ a b, x ← a; y ← b; Some (x + y);
  num_truthy := λ a, match a with Some x => negb (x =? 0) | None => false end;
  num_of_string := parse;
  num_to_string := λ a, match a with Some x => pretty x | None => "NaN" end;
  num_toFixed2 := λ a, a;
  num_toFixed2_zero := eq_refl;
|}.

End IntegerNumbers.

End Json.

(** ** Circuit breaker *)

Module CircuitBreaker.

(** [{ failures, isOpen, isHalfOpen, lastFailure }].  [failures] and
    [lastFailure] are JavaScript numbers holding integers (a counter and a
    millisecond timestamp); they are modelled in [Z], which is exact as long
    as the counter stays below 2^53. *)
Record Breaker : Type := mkBreaker {
  failures : Z;
  isOpen : bool;
  isHalfOpen : bool;
  lastFailure : Z;
}.

#[global] Instance Breaker_eq_dec : EqDecision Breaker.
Proof. solve_decision. Defined.

Abbreviation Breakers := (gmap string Breaker).

(** The cool-down constant of [isCircuitOpen] and the threshold of
    [recordFailure]. *)
Definition coolDown : Z := 30000.
Definition threshold : Z := 3.

(** The record [recordFailure] starts from when the map has none. *)
Definition freshBreaker : Breaker :=
  {| failures := 0; isOpen := false; isHalfOpen := false; lastFailure := 0 |}.

(** [isCircuitOpen(serviceName)]: the boolean answer and the map after the
    (possible) demotion to half-open. *)
Definition isCircuitOpen (serviceName : string) (now : Z) (cb : Breakers)
  : bool * Breakers :=
  match cb !! serviceName with
  | None => (false, cb)
  | Some b =>
      if isOpen b && (coolDown <? now - lastFailure b) then
        (false,
         <[serviceName :=
             {| failures := failures b; isOpen := false; isHalfOpen := true;
                lastFailure := lastFailure b |}]> cb)
      else (isOpen b, cb)
  end.

(** [recordFailure(serviceName)]. *)
Definition recordFailure (serviceName : string) (now : Z) (cb : Breakers)
  : Breakers :=
  let b := default freshBreaker (cb !! serviceName) in
  let n := failures b + 1 in
  let b' :=
    if threshold <=? n then
      {| failures := n; isOpen := true; isHalfOpen := false; lastFailure := now |}
    else
      {| failures := n; isOpen := isOpen b; isHalfOpen := isHalfOpen b;
         lastFailure := now |} in
  <[serviceName := b']> cb.

(** [resetCircuitBreaker(serviceName)]: nothing happens without a record. *)
Definition resetCircuitBreaker (serviceName : string) (cb : Breakers) : Breakers :=
  match cb !! serviceName with
  | None => cb
  | Some b =>
      <[serviceName :=
          {| failures := 0; isOpen := false; isHalfOpen := false;
             lastFailure := lastFailure b |}]> cb
  end.

(** The view of a service that has no record yet is the one [recordFailure]
    and [isCircuitOpen] take: zero failures, closed. *)
Definition breakerOf (serviceName : string) (cb : Breakers) : Breaker :=
  default freshBreaker (cb !! serviceName).

(** The record invariant: a non-negative failure count and at most one of
    the two flags set. *)
Definition breakerOk (b : Breaker) : bool :=
  (0 <=? failures b) && negb (isOpen b && isHalfOpen b).

Definition breakersOk (cb : Breakers) : Prop :=
  map_Forall (λ _ b, breakerOk b = true) cb.

(** The operations that reach the breaker map while the gateway runs: the
    gate and the two recording calls made by [proxyByEntry], and the timer
    callback of [startHealthChecks], whose body only calls
    [serviceRegistry.performHealthChecks()]. *)
Inductive Op : Type :=
  | OpGate (serviceName : string) (now : Z)
  | OpFailure (serviceName : string) (now : Z)
  | OpReset (serviceName : string)
  | OpHealthTick.

Definition applyOp (op : Op) (cb : Breakers) : Breakers :=
  match op with
  | OpGate serviceName now => (isCircuitOpen serviceName now cb).2
  | OpFailure serviceName now => recordFailure serviceName now cb
  | OpReset serviceName => resetCircuitBreaker serviceName cb
  | OpHealthTick => cb
  end.

(** Maps the gateway can hold: the constructor starts from [new Map()]. *)
Inductive reachable : Breakers → Prop :=
  | reachable_init : reachable ∅
  | reachable_step op cb : reachable cb → reachable (applyOp op cb).

(** The time an operation reads from [Date.now()], if it reads it. *)
Definition opTime (op : Op) : option Z :=
  match op with
  | OpGate _ now | OpFailure _ now => Some now
  | OpReset _ | OpHealthTick => None
  end.

(** [reachableAt clock cb]: [cb] is reached by operations whose readings of
    the clock never decrease and do not exceed [clock]. *)
Inductive reachableAt : Z → Breakers → Prop :=
  | reachableAt_init clock : reachableAt clock ∅
  | reachableAt_step clock clock' op cb :
      reachableAt clock cb →
      clock ≤ clock' →
      (∀ now, opTime op = Some now → clock ≤ now ∧ now ≤ clock') →
      reachableAt clock' (applyOp op cb).

End CircuitBreaker.

(** Sample maps for the item service: after three failures ending at time
    1000, and the same record once the gate has demoted it. *)
Module Samples.
Import CircuitBreaker.

Definition openRecord : Breaker :=
  {| failures := 3; isOpen := true; isHalfOpen := false; lastFailure := 1000 |}.

Definition halfOpenRecord : Breaker :=
  {| failures := 3; isOpen := false; isHalfOpen := true; lastFailure := 1000 |}.

Definition threeFailures : Breakers :=
  recordFailure "item-service" 1000
    (recordFailure "item-service" 900 (recordFailure "item-service" 800 ∅)).

Definition halfOpened : Breakers :=
  (isCircuitOpen "item-service" 31001 threeFailures).2.
End Samples.

(** ** Request proxy *)

Module Proxy.
Import Json CircuitBreaker.

(** One row of [this.routeTable]. *)
Record RouteEntry : Type := {
  prefix : string;
  service : string;
  strip : string;
  forwardBase : string;
}.

Definition routeTable : list RouteEntry :=
  [ {| prefix := "/api/auth";  service := "user-service"; strip := "/api/auth";
       forwardBase := "/auth" |};
    {| prefix := "/api/users"; service := "user-service"; strip := "/api/users";
       forwardBase := "/users" |};
    {| prefix := "/api/items"; service := "item-service"; strip := "/api/items";
       forwardBase := "/items" |};
    {| prefix := "/api/lists"; service := "list-service"; strip := "/api/lists";
       forwardBase := "/lists" |} ].

(** What the gateway reads of a registry record: [service.url]. *)
Record ServiceInfo : Type := { url : string }.

(** [pat] is a prefix of [s]: the rest of [s] after it. *)
Fixpoint stripPrefix (pat s : string) : option string :=
  match pat, s with
  | EmptyString, _ => Some s
  | String a pat', String b s' =>
      if Ascii.eqb a b then stripPrefix pat' s' else None
  | String _ _, EmptyString => None
  end.

(** [s.replace(pat, '')] with a string pattern: the first occurrence of [pat]
    is removed, wherever it is; [s] is returned when there is none. *)
Fixpoint replaceFirst (pat s : string) : string :=
  match stripPrefix pat s with
  | Some rest => rest
  | None =>
      match s with
      | EmptyString => EmptyString
      | String c s' => String c (replaceFirst pat s')
      end
  end.

(** [s.startsWith('/')]. *)
Definition startsWithSlash (s : string) : bool :=
  match s with
  | String c _ => Ascii.eqb c "/"%char
  | EmptyString => false
  end.

(** The two [if]s that follow the [replace] in [proxyByEntry]. *)
Definition normalizeSuffix (suffix : string) : string :=
  let suffix := if startsWithSlash suffix then suffix else "/" +:+ suffix in
  if String.eqb suffix "/" || String.eqb suffix "" then "" else suffix.

Definition targetPath (entry : RouteEntry) (originalUrl : string) : string :=
  forwardBase entry +:+ normalizeSuffix (replaceFirst (strip entry) originalUrl).

Definition targetUrl (svc : ServiceInfo) (entry : RouteEntry) (originalUrl : string)
  : string :=
  url svc +:+ targetPath entry originalUrl.

Section WithNumbers.
Context {num : Type} `{JsNumber num}.

(** The fields of the Express request that [proxyByEntry] reads.  Node
    lower-cases header names, so [headers] is keyed by lower-case names;
    [query] is the parsed query object. *)
Record Request : Type := {
  method : string;
  originalUrl : string;
  headers : gmap string string;
  query : list (string * json num);
  body : jsval num;
}.

(** The object handed to [axios]. *)
Record AxiosConfig : Type := {
  cfg_method : string;
  cfg_url : string;
  cfg_headers : option (gmap string string);
  cfg_timeout : Z;
  cfg_family : Z;
  cfg_validateStatus : Z → bool;
  cfg_data : jsval num;
  cfg_params : option (list (string * json num));
}.

(** What the gateway sends back: [res.status(s).json(b)]. *)
Record Response : Type := { res_status : Z; res_json : json num }.

(** What happened on the wire for one forwarded call. *)
Inductive BackendResult : Type :=
  | Responded (st : Z) (data : json num)
  | TransportError (code : option string) (message : string).

(** The error object [axios] rejects with. *)
Record AxiosError : Type := {
  err_code : option string;
  err_message : string;
  err_response : option (Z * json num);
}.

Inductive AxiosResult : Type :=
  | Resolved (st : Z) (data : json num)
  | Rejected (err : AxiosError).

(** [await axios(config)]: a response resolves when [validateStatus]
    accepts its status and rejects, carrying the response, otherwise. *)
Definition axios (cfg : AxiosConfig) (r : BackendResult) : AxiosResult :=
  match r with
  | Responded st data =>
      if cfg_validateStatus cfg st then Resolved st data
      else Rejected {| err_code := Some "ERR_BAD_RESPONSE";
                       err_message := "Request failed";
                       err_response := Some (st, data) |}
  | TransportError code message =>
      Rejected {| err_code := code; err_message := message;
                  err_response := None |}
  end.

(** Calls that leave the gateway object, in the order they are made. *)
Inductive Effect : Type :=
  | EDiscover (serviceName : string)
  | EListServices
  | EAxios (cfg : AxiosConfig).

(** [['POST', 'PUT', 'PATCH'].includes(m)]. *)
Definition hasBody (m : string) : bool :=
  String.eqb m "POST" || String.eqb m "PUT" || String.eqb m "PATCH".

(** The [config] object of [proxyByEntry], after the two [delete]s. *)
Definition proxyConfig (svc : ServiceInfo) (entry : RouteEntry) (req : Request)
  : AxiosConfig :=
  {| cfg_method := method req;
     cfg_url := targetUrl svc entry (originalUrl req);
     cfg_headers := Some (delete "content-length" (delete "host" (headers req)));
     cfg_timeout := 10000;
     cfg_family := 4;
     cfg_validateStatus := λ st, st <? 500;
     cfg_data := if hasBody (method req) then body req else None;
     cfg_params := match query req with [] => None | q => Some q end |}.

Definition circuitOpenResponse (serviceName : string) : Response :=
  {| res_status := 503;
     res_json := JObj [("success", JBool false);
                   ("message", JStr ("Serviço " +:+ serviceName +:+
                                     " temporariamente indisponível"));
                   ("service", JStr serviceName)] |}.

Definition notFoundResponse (serviceName : string) (available : list string)
  : Response :=
  {| res_status := 503;
     res_json := JObj [("success", JBool false);
                   ("message", JStr ("Serviço " +:+ serviceName +:+
                                     " não encontrado"));
                   ("availableServices", JArr (JStr <$> available))] |}.

Definition unavailableResponse (serviceName code : string) : Response :=
  {| res_status := 503;
     res_json := JObj [("success", JBool false);
                   ("message", JStr ("Serviço " +:+ serviceName +:+
                                     " indisponível"));
                   ("service", JStr serviceName);
                   ("error", JStr code)] |}.

Definition internalErrorResponse (message : string) : Response :=
  {| res_status := 500;
     res_json := JObj [("success", JBool false);
                   ("message", JStr "Erro interno do gateway");
                   ("service", JStr "api-gateway");
                   ("error", JStr message)] |}.

(** The [catch] block of [proxyByEntry], after [recordFailure]. *)
Definition errorResponse (serviceName : string) (err : AxiosError) : Response :=
  let code := default "" (err_code err) in
  if String.eqb code "ECONNREFUSED" || String.eqb code "ETIMEDOUT" then
    unavailableResponse serviceName code
  else
    match err_response err with
    | Some (st, data) => {| res_status := st; res_json := data |}
    | None => internalErrorResponse (err_message err)
    end.

(** [proxyByEntry] is an [async] function with one [await]; it either
    answers before the [await] or suspends on the forwarded call. *)
Inductive Pending : Type :=
  | Answered (r : Response)
  | AwaitAxios (cfg : AxiosConfig).

Section WithRegistry.
(** The shared registry module ([../shared/serviceRegistry]) as the
    gateway sees it: [discover] throws ([None]) or returns a record,
    [listServices] returns an object keyed by service name. *)
Variable discover : string → option ServiceInfo.
Variable listServices : list (string * json num).

(** [proxyByEntry] up to the [await]: the gate, the discovery and the
    construction of the forwarded request, at time [now]. *)
Definition proxyBegin (entry : RouteEntry) (req : Request) (now : Z)
    (cb : Breakers) : Breakers * list Effect * Pending :=
  let serviceName := service entry in
  let '(open, cb) := isCircuitOpen serviceName now cb in
  if open then (cb, [], Answered (circuitOpenResponse serviceName))
  else
    match discover serviceName with
    | None =>
        (cb, [EDiscover serviceName; EListServices],
         Answered (notFoundResponse serviceName (fst <$> listServices)))
    | Some svc =>
        (cb, [EDiscover serviceName], AwaitAxios (proxyConfig svc entry req))
    end.

(** [proxyByEntry] from the [await] on, at time [now]. *)
Definition proxyResume (entry : RouteEntry) (now : Z) (r : AxiosResult)
    (cb : Breakers) : Breakers * Response :=
  let serviceName := service entry in
  match r with
  | Resolved st data =>
      (resetCircuitBreaker serviceName cb, {| res_status := st; res_json := data |})
  | Rejected err =>
      (recordFailure serviceName now cb, errorResponse serviceName err)
  end.

(** One request served without interleaving: the gate is read at [t0],
    the forwarded call settles at [t1]. *)
Definition proxyByEntry (backend : AxiosConfig → BackendResult)
    (entry : RouteEntry) (req : Request) (t0 t1 : Z) (cb : Breakers)
  : Breakers * list Effect * Response :=
  let '(cb, log, p) := proxyBegin entry req t0 cb in
  match p with
  | Answered r => (cb, log, r)
  | AwaitAxios cfg =>
      let '(cb, r) := proxyResume entry t1 (axios cfg (backend cfg)) cb in
      (cb, log ++ [EAxios cfg], r)
  end.

End WithRegistry.
End WithNumbers.

Arguments Request num : clear implicits.
Arguments AxiosConfig num : clear implicits.
Arguments Response num : clear implicits.
Arguments BackendResult num : clear implicits.
Arguments AxiosError num : clear implicits.
Arguments AxiosResult num : clear implicits.
Arguments Effect num : clear implicits.
Arguments Pending num : clear implicits.

End Proxy.

(** ** Aggregated endpoints *)

Module Aggregator.
Import Json CircuitBreaker Proxy.

Section WithNumbers.
Context {num : Type} `{JsNumber num}.

(** One entry of the array [Promise.allSettled] resolves to. *)
Inductive Settled : Type :=
  | Fulfilled (value : json num)
  | Failed.

(** The arguments of one [callService] call. *)
Record Call : Type := {
  call_service : string;
  call_path : string;
  call_method : string;
  call_auth : option string;
  call_params : list (string * json num);
  call_data : jsval num;
}.

(** The [config] object of [callService]. *)
Definition callConfig (svc : ServiceInfo) (c : Call) : AxiosConfig num :=
  {| cfg_method := call_method c;
     cfg_url := url svc +:+ call_path c;
     cfg_headers :=
       match call_auth c with
       | Some a => if String.eqb a "" then None
                   else Some {[ "Authorization" := a ]}
       | None => None
       end;
     cfg_timeout := 10000;
     cfg_family := 4;
     cfg_validateStatus := λ st, st <? 500;
     cfg_data := if hasBody (call_method c) && truthy (call_data c)
                 then call_data c else None;
     cfg_params :=
       if String.eqb (call_method c) "GET" then
         match call_params c with [] => None | ps => Some ps end
       else None |}.

(** The fallback of [l.summary || {...}] in [getDashboard]. *)
Definition emptySummary : json num :=
  JObj [("totalItems", JNum (num_of_Z 0));
        ("purchasedItems", JNum (num_of_Z 0));
        ("estimatedTotal", JNum (num_of_Z 0))].

(** [res.status === 'fulfilled' ? res.value.data || res.value : []]; the
    outer [None] is the [TypeError] of reading [data] off [null]. *)
Definition dataOrSelf (r : Settled) : option (json num) :=
  match r with
  | Fulfilled value =>
      d ← getProp (Some value) "data";
      Some (default value (jsOr d (Some value)))
  | Failed => Some (JArr [])
  end.

(** The four counters of [getDashboard]. *)
Record Totals : Type := {
  totalLists : num;
  totalItems : num;
  purchasedItems : num;
  estimatedTotal : num;
}.

(** The body of [for (const l of lists)]. *)
Definition addSummary (l : json num) (t : Totals) : option Totals :=
  raw ← getProp (Some l) "summary";
  let s := jsOr raw (Some emptySummary) in
  ti ← getProp s "totalItems";
  pi ← getProp s "purchasedItems";
  et ← getProp s "estimatedTotal";
  Some {| totalLists := totalLists t;
          totalItems := num_add (totalItems t) (numberOrZero ti);
          purchasedItems := num_add (purchasedItems t) (numberOrZero pi);
          estimatedTotal := num_add (estimatedTotal t) (numberOrZero et) |}.

Fixpoint addSummaries (lists : list (json num)) (t : Totals) : option Totals :=
  match lists with
  | [] => Some t
  | l :: rest => t' ← addSummary l t; addSummaries rest t'
  end.

(** [let totalLists = 0, ...; if (Array.isArray(lists)) { ... }]. *)
Definition summarize (lists : json num) : option Totals :=
  let zero := {| totalLists := num_of_Z 0; totalItems := num_of_Z 0;
                 purchasedItems := num_of_Z 0; estimatedTotal := num_of_Z 0 |} in
  match lists with
  | JArr ls =>
      addSummaries ls
        {| totalLists := num_of_Z (Z.of_nat (length ls));
           totalItems := num_of_Z 0; purchasedItems := num_of_Z 0;
           estimatedTotal := num_of_Z 0 |}
  | _ => Some zero
  end.

(** The [lists] and [catalog] objects of the dashboard payload. *)
Definition listsSegment (t : Totals) (sample : json num) : json num :=
  JObj [("totalLists", JNum (totalLists t));
        ("totalItems", JNum (totalItems t));
        ("purchasedItems", JNum (purchasedItems t));
        ("estimatedTotal", JNum (num_toFixed2 (estimatedTotal t)));
        ("sample", sample)].

Definition catalogSegment (sampleItems categories : json num) : json num :=
  JObj [("sampleItems", sampleItems); ("categories", categories)].

Definition dashboardBody (timestamp : string) (services : json num)
    (listsSeg catalogSeg : json num) : json num :=
  JObj [("success", JBool true);
        ("data", JObj [("timestamp", JStr timestamp);
                       ("services", services);
                       ("lists", listsSeg);
                       ("catalog", catalogSeg)])].

(** The first half of the [try] block of [getDashboard] after the [await]:
    the three payloads and the totals; [None] stands for a thrown
    [TypeError]. *)
Definition settledInputs (listsRes itemsRes catsRes : Settled)
  : option (json num * json num * json num * Totals) :=
  lists ← dataOrSelf listsRes;
  items ← dataOrSelf itemsRes;
  categories ← dataOrSelf catsRes;
  totals ← summarize lists;
  Some (lists, items, categories, totals).

(** The object literal handed to [res.json], evaluated after
    [serviceRegistry.listServices()] has returned [services]. *)
Definition dashboardPayload (timestamp : string) (services : json num)
    (inputs : json num * json num * json num * Totals) : option (json num) :=
  let '(lists, items, categories, totals) := inputs in
  sample ← slice0 5 (Some lists);
  sampleItems ← sliceIfAny 5 items;
  Some (dashboardBody timestamp services
          (listsSegment totals sample) (catalogSegment sampleItems categories)).

Definition unauthorizedResponse : Response num :=
  {| res_status := 401;
     res_json := JObj [("success", JBool false);
                       ("message", JStr "Token de autenticação obrigatório")] |}.

Definition dashboardErrorResponse : Response num :=
  {| res_status := 500;
     res_json := JObj [("success", JBool false);
                       ("message", JStr "Erro ao agregar dashboard")] |}.

(** The double-quote character. *)
Definition quote : string := String (ascii_of_nat 34) EmptyString.

Definition missingQueryResponse : Response num :=
  {| res_status := 400;
     res_json := JObj [("success", JBool false);
                       ("message",
                        JStr ("Parâmetro " +:+ quote +:+ "q" +:+ quote +:+
                              " é obrigatório"))] |}.

Definition searchErrorResponse : Response num :=
  {| res_status := 500;
     res_json := JObj [("success", JBool false);
                       ("message", JStr "Erro na busca global")] |}.

(** The three calls of [getDashboard], in the order of the array. *)
Definition listsCall (authHeader : string) : Call :=
  {| call_service := "list-service"; call_path := "/lists";
     call_method := "GET"; call_auth := Some authHeader;
     call_params := [("limit", JNum (num_of_Z 50))]; call_data := None |}.

Definition itemsCall : Call :=
  {| call_service := "item-service"; call_path := "/items";
     call_method := "GET"; call_auth := None;
     call_params := [("limit", JNum (num_of_Z 10))]; call_data := None |}.

Definition categoriesCall : Call :=
  {| call_service := "item-service"; call_path := "/categories";
     call_method := "GET"; call_auth := None;
     call_params := []; call_data := None |}.

(** [getDashboard] from the settled results on: the answer and whether the
    registry was listed on the way ([timestamp] is
    [new Date().toISOString()]). *)
Definition respondDashboard (timestamp : string) (services : json num)
    (listsRes itemsRes catsRes : Settled) : list (Effect num) * Response num :=
  match settledInputs listsRes itemsRes catsRes with
  | None => ([], dashboardErrorResponse)
  | Some inputs =>
      ([EListServices],
       match dashboardPayload timestamp services inputs with
       | Some payload => {| res_status := 200; res_json := payload |}
       | None => dashboardErrorResponse
       end)
  end.

(** The [searches] array of [globalSearch]. *)
Definition searchCalls (q : json num) (authHeader : option string) : list Call :=
  {| call_service := "item-service"; call_path := "/search";
     call_method := "GET"; call_auth := None;
     call_params := [("q", q)]; call_data := None |}
  :: match authHeader with
     | Some a =>
         if String.eqb a "" then []
         else [ {| call_service := "list-service"; call_path := "/lists";
                   call_method := "GET"; call_auth := Some a;
                   call_params := [("limit", JNum (num_of_Z 100))];
                   call_data := None |} ]
     | None => []
     end.

Section WithRegistry.
Variable discover : string → option ServiceInfo.
Variable listServices : list (string * json num).
Variable backend : AxiosConfig num → BackendResult num.

(** [callService]: the calls it makes and how its promise settles. *)
Definition callService (c : Call) : list (Effect num) * Settled :=
  match discover (call_service c) with
  | None => ([EDiscover (call_service c)], Failed)
  | Some svc =>
      let cfg := callConfig svc c in
      ([EDiscover (call_service c); EAxios cfg],
       match axios cfg (backend cfg) with
       | Resolved _ data => Fulfilled data
       | Rejected _ => Failed
       end)
  end.

(** [Promise.allSettled(calls.map(callService))]. *)
Definition allSettled (calls : list Call) : list (Effect num) * list Settled :=
  let rs := callService <$> calls in
  (concat (fst <$> rs), snd <$> rs).

(** [req.header('Authorization')]. *)
Definition authorization (req : Request num) : option string :=
  headers req !! "authorization".

(** [getDashboard]. *)
Definition getDashboard (timestamp : string) (req : Request num)
  : list (Effect num) * Response num :=
  match authorization req with
  | None => ([], unauthorizedResponse)
  | Some authHeader =>
      if String.eqb authHeader "" then ([], unauthorizedResponse)
      else
        let '(log1, listsRes) := callService (listsCall authHeader) in
        let '(log2, itemsRes) := callService itemsCall in
        let '(log3, catsRes) := callService categoriesCall in
        let '(log4, r) :=
          respondDashboard timestamp (JObj listServices) listsRes itemsRes catsRes in
        (log1 ++ log2 ++ log3 ++ log4, r)
  end.

(** [globalSearch]: the guard on [q], the calls issued and, through
    [merge], the composition of the settled results (the part of the
    [try] block after the [await], a [TypeError] being [None]). *)
Definition globalSearch
    (merge : json num → list Settled → option (json num)) (req : Request num)
  : list (Effect num) * Response num :=
  let q := field "q" (query req) in
  match q with
  | Some qv =>
      if truthy q then
        let '(log, settled) := allSettled (searchCalls qv (authorization req)) in
        match merge qv settled with
        | Some payload => (log, {| res_status := 200; res_json := payload |})
        | None => (log, searchErrorResponse)
        end
      else ([], missingQueryResponse)
  | None => ([], missingQueryResponse)
  end.

End WithRegistry.
End WithNumbers.

End Aggregator.

(** ** Sample requests and services *)

Module ProxySamples.
Import Json Json.IntegerNumbers CircuitBreaker Proxy Aggregator.

Abbreviation num := (option Z).

Definition itemsEntry : RouteEntry :=
  {| prefix := "/api/items"; service := "item-service"; strip := "/api/items";
     forwardBase := "/items" |}.

Definition itemService : ServiceInfo := {| url := "http://127.0.0.1:3002" |}.

(** A registry that knows the item service only. *)
Definition discover (serviceName : string) : option ServiceInfo :=
  if String.eqb serviceName "item-service" then Some itemService else None.

Definition listServices : list (string * json num) :=
  [("item-service", JObj [("url", JStr "http://127.0.0.1:3002");
                          ("healthy", JBool true)])].

(** A registry with no service at all. *)
Definition discoverNone (serviceName : string) : option ServiceInfo := None.

Definition getItem42 : Request num :=
  {| method := "GET"; originalUrl := "/api/items/42";
     headers := {[ "host" := "localhost:3000"; "accept" := "*/*" ]};
     query := []; body := Some (JObj []) |}.

Definition postItem : Request num :=
  {| method := "POST"; originalUrl := "/api/items";
     headers := {[ "host" := "localhost:3000"; "content-length" := "14";
                   "authorization" := "Bearer t" ]};
     query := []; body := Some (JObj [("name", JStr "Arroz")]) |}.

Definition dashboardRequest : Request num :=
  {| method := "GET"; originalUrl := "/api/dashboard";
     headers := {[ "host" := "localhost:3000"; "authorization" := "Bearer t" ]};
     query := []; body := Some (JObj []) |}.

Definition searchNoQuery : Request num :=
  {| method := "GET"; originalUrl := "/api/search";
     headers := {[ "host" := "localhost:3000" ]};
     query := []; body := Some (JObj []) |}.

Definition searchEmptyQuery : Request num :=
  {| method := "GET"; originalUrl := "/api/search?q=";
     headers := {[ "host" := "localhost:3000" ]};
     query := [("q", JStr "")]; body := Some (JObj []) |}.

Definition notFoundBody : json num :=
  JObj [("success", JBool false); ("message", JStr "Item não encontrado")].

Definition itemsBody : json num :=
  JObj [("success", JBool true);
        ("data", JArr [JObj [("name", JStr "Arroz")]])].

Definition categoriesBody : json num :=
  JObj [("success", JBool true); ("data", JArr [JStr "Alimentos"])].

(** A backend that answers every call with 404. *)
Definition backend404 (cfg : AxiosConfig num) : BackendResult num :=
  Responded 404 notFoundBody.

(** A backend that refuses every connection. *)
Definition backendDown (cfg : AxiosConfig num) : BackendResult num :=
  TransportError (Some "ECONNREFUSED") "connect ECONNREFUSED".

(** The item service answers its two catalogue routes. *)
Definition catalogBackend (cfg : AxiosConfig num) : BackendResult num :=
  if String.eqb (cfg_url cfg) "http://127.0.0.1:3002/items"
  then Responded 200 itemsBody
  else Responded 200 categoriesBody.
End ProxySamples.

(** ** The rest of [globalSearch]: merging the settled searches *)

Module Search.
Import Json CircuitBreaker Proxy Aggregator.

(** [s.includes(term)]: [term] occurs in [s]. *)
Fixpoint includes (term s : string) : bool :=
  match stripPrefix term s with
  | Some _ => true
  | None =>
      match s with
      | EmptyString => false
      | String _ s' => includes term s'
      end
  end.

Section WithNumbers.
Context {num : Type} `{JsNumber num}.

(** [String.prototype.toLowerCase], which follows the Unicode case tables,
    is a parameter. *)
Variable toLowerCase : string → string.

(** [v?.k] for a data property: [undefined] when [v] is [undefined] or
    [null], and never a [TypeError]. *)
Definition getPropOpt (v : jsval num) (k : string) : jsval num :=
  match v with
  | Some (JObj fields) => field k fields
  | _ => None
  end.

(** [itemsRes.status === 'fulfilled'
      ? (value?.data?.results || value?.data || value?.results || []) : []]. *)
Definition itemResultsOf (itemsRes : Settled) : json num :=
  match itemsRes with
  | Fulfilled value =>
      let v := Some value in
      default (JArr [])
        (jsOr (jsOr (jsOr (getPropOpt (getPropOpt v "data") "results")
                          (getPropOpt v "data"))
                    (getPropOpt v "results"))
              (Some (JArr [])))
  | Failed => JArr []
  end.

(** [v.length] for a value that is not [undefined] or [null] (a string
    counts its bytes, which is its length on ASCII text). *)
Definition lengthOf (v : json num) : jsval num :=
  match v with
  | JArr l => Some (JNum (num_of_Z (Z.of_nat (length l))))
  | JStr s => Some (JNum (num_of_Z (Z.of_nat (String.length s))))
  | JObj fields => field "length" fields
  | JNull | JBool _ | JNum _ => None
  end.

(** [(v || '').toLowerCase().includes(term)]; [None] is the [TypeError] of
    calling [toLowerCase] on a truthy value that is not a string. *)
Definition lowerIncludes (term : string) (v : jsval num) : option bool :=
  match jsOr v (Some (JStr "")) with
  | Some (JStr s) => Some (includes term (toLowerCase s))
  | _ => None
  end.

(** [arr.some(it => (it.itemName || '').toLowerCase().includes(term))]: the
    elements after the first hit are not looked at. *)
Fixpoint someItemHit (term : string) (items : list (json num)) : option bool :=
  match items with
  | [] => Some false
  | it :: rest =>
      name ← getProp (Some it) "itemName";
      match lowerIncludes term name with
      | Some true => Some true
      | Some false => someItemHit term rest
      | None => None
      end
  end.

(** The callback of [filter]: both [nameHit] and [itemHit] are computed. *)
Definition listHit (term : string) (l : json num) : option bool :=
  name ← getProp (Some l) "name";
  nameHit ← lowerIncludes term name;
  items ← getProp (Some l) "items";
  itemHit ←
    match jsOr items (Some (JArr [])) with
    | Some (JArr its) => someItemHit term its
    | _ => None
    end;
  Some (nameHit || itemHit).

(** [arr.filter(callback)] with a callback that may throw. *)
Fixpoint filterHits (term : string) (lists : list (json num))
  : option (list (json num)) :=
  match lists with
  | [] => Some []
  | l :: rest =>
      match listHit term l with
      | Some hit =>
          kept ← filterHits term rest;
          Some (if hit then l :: kept else kept)
      | None => None
      end
  end.

(** The [if (listsRes && listsRes.status === 'fulfilled')] block. *)
Definition listMatchesOf (q : json num) (listsRes : option Settled)
  : option (list (json num)) :=
  match listsRes with
  | Some (Fulfilled value) =>
      let lists :=
        match getPropOpt (Some value) "data" with
        | Some (JArr ls) => JArr ls
        | _ => value
        end in
      let term := toLowerCase (toString q) in
      match jsOr (Some lists) (Some (JArr [])) with
      | Some (JArr ls) => filterHits term ls
      | _ => None
      end
  | Some Failed | None => Some []
  end.

(** An object literal drops the properties whose value is [undefined]. *)
Definition optField (k : string) (v : jsval num) : list (string * json num) :=
  match v with
  | Some x => [(k, x)]
  | None => []
  end.

(** [globalSearch] from the [await] on; [None] is a thrown [TypeError]. *)
Definition mergeSearch (q : json num) (settled : list Settled)
  : option (json num) :=
  match settled with
  | [] => None
  | itemsRes :: rest =>
      let itemResults := itemResultsOf itemsRes in
      listMatches ← listMatchesOf q (head rest);
      results ← slice0 20 (Some itemResults);
      Some (JObj [("success", JBool true);
                  ("data",
                   JObj [("query", q);
                         ("items",
                          JObj (optField "total" (lengthOf itemResults) ++
                                [("results", results)]));
                         ("lists",
                          JObj [("total",
                                 JNum (num_of_Z (Z.of_nat (length listMatches))));
                                ("results", JArr (take 10 listMatches))])])])
  end.

End WithNumbers.
End Search.

(** ** The fallback handlers of [setupErrorHandling] *)

Module ErrorHandling.
Import Json Proxy.

Section WithNumbers.
Context {num : Type} `{JsNumber num}.

(** What the error handler reads of the error object: [err.status] and
    [err.message], each possibly [undefined]. *)
Record GatewayError : Type := {
  ge_status : option Z;
  ge_message : option string;
}.

(** [err.status || 500]. *)
Definition statusOf (err : GatewayError) : Z :=
  match ge_status err with
  | Some st => if st =? 0 then 500 else st
  | None => 500
  end.

(** The four-argument error handler. *)
Definition errorHandler (err : GatewayError) : Response num :=
  let st := statusOf err in
  {| res_status := st;
     res_json :=
       JObj [("success", JBool false);
             ("message",
              JStr (if st =? 500 then "Erro interno do gateway"
                    else match ge_message err with
                         | Some m => if String.eqb m "" then "Erro no gateway" else m
                         | None => "Erro no gateway"
                         end));
             ("service", JStr "api-gateway")] |}.

(** The catch-all [app.use('*', ...)] handler. *)
Definition endpointNotFound : Response num :=
  {| res_status := 404;
     res_json :=
       JObj [("success", JBool false);
             ("message", JStr "Endpoint não encontrado");
             ("service", JStr "api-gateway");
             ("availableEndpoints",
              JObj [("auth", JStr "/api/auth/*");
                    ("users", JStr "/api/users/*");
                    ("items", JStr "/api/items/*");
                    ("lists", JStr "/api/lists/*");
                    ("dashboard", JStr "/api/dashboard");
                    ("search", JStr "/api/search?q=termo");
                    ("health", JStr "/health");
                    ("registry", JStr "/registry")])] |}.

End WithNumbers.
End ErrorHandling.

(** ** Sample data for the aggregated endpoints *)

Module SearchSamples.
Import Json Json.IntegerNumbers CircuitBreaker Proxy Aggregator.

Abbreviation num := (option Z).

(** Lower-casing of the 26 ASCII capitals, one instance of the
    [toLowerCase] parameter. *)
Definition asciiLowerChar (c : ascii) : ascii :=
  let n := nat_of_ascii c in
  if (65 <=? n)%nat && (n <=? 90)%nat then ascii_of_nat (n + 32) else c.

Fixpoint asciiLower (s : string) : string :=
  match s with
  | EmptyString => EmptyString
  | String c s' => String (asciiLowerChar c) (asciiLower s')
  end.

Definition searchArroz : Request num :=
  {| method := "GET"; originalUrl := "/api/search?q=Arroz";
     headers := {[ "host" := "localhost:3000" ]};
     query := [("q", JStr "Arroz")]; body := Some (JObj []) |}.

Definition getItem42Limit : Request num :=
  {| method := "GET"; originalUrl := "/api/items/42?limit=5";
     headers := {[ "host" := "localhost:3000" ]};
     query := [("limit", JStr "5")]; body := Some (JObj []) |}.

Definition dashboardNoAuth : Request num :=
  {| method := "GET"; originalUrl := "/api/dashboard";
     headers := {[ "host" := "localhost:3000" ]};
     query := []; body := Some (JObj []) |}.

Definition searchBody : json num :=
  JObj [("success", JBool true);
        ("data", JObj [("results", JArr [JObj [("name", JStr "Arroz Tipo 1")]]);
                       ("total", JNum (Some 1))])].

(** The item service answers every call with one search hit. *)
Definition searchBackend (cfg : AxiosConfig num) : BackendResult num :=
  Responded 200 searchBody.

(** The body the list service sends with a 401. *)
Definition invalidTokenBody : json num :=
  JObj [("success", JBool false); ("message", JStr "Token inválido")].

(** Both services are registered; every call is answered with that 401. *)
Definition discoverBoth (serviceName : string) : option ServiceInfo :=
  if String.eqb serviceName "item-service"
  then Some {| url := "http://127.0.0.1:3003" |}
  else if String.eqb serviceName "list-service"
       then Some {| url := "http://127.0.0.1:3002" |}
       else None.

Definition backend401 (cfg : AxiosConfig num) : BackendResult num :=
  Responded 401 invalidTokenBody.

(** The list service rejects the token with that 401 while the item service
    answers its two catalogue routes. *)
Definition tokenRejectedBackend (cfg : AxiosConfig num) : BackendResult num :=
  if String.eqb (cfg_url cfg) "http://127.0.0.1:3002/lists"
  then Responded 401 invalidTokenBody
  else if String.eqb (cfg_url cfg) "http://127.0.0.1:3003/items"
       then Responded 200 ProxySamples.itemsBody
       else Responded 200 ProxySamples.categoriesBody.

Definition feira : json num :=
  JObj [("name", JStr "Feira de Sábado")].

Definition mercado : json num :=
  JObj [("name", JStr "Mercado");
        ("items", JArr [JObj [("itemName", JStr "Feijão Carioca")]])].

(** What the list service answers for a user with two lists. *)
Definition twoLists : list (json num) :=
  [JObj [("name", JStr "Feira");
         ("summary", JObj [("totalItems", JNum (Some 3));
                           ("purchasedItems", JNum (Some 1));
                           ("estimatedTotal", JNum (Some 42))])];
   JObj [("name", JStr "Mercado")]].

Definition twoListsBody : json num :=
  JObj [("success", JBool true); ("data", JArr twoLists)].

End SearchSamples.

(** ** The forwarded URL as the specification words it *)

Module SpecWording.
Import Proxy.

(** The backend base URL, the rule's forward base, and the original URL
    with the rule's strip-prefix removed from its front. *)
Definition specTargetUrl (svc : ServiceInfo) (entry : RouteEntry)
    (originalUrl : string) : string :=
  url svc +:+ forwardBase entry +:+
  default originalUrl (stripPrefix (strip entry) originalUrl).
End SpecWording.

(** * Properties *)

(** ** The circuit breaker on its own *)

Module BreakerProps.
Import CircuitBreaker.

Lemma gate_lookup_ne (s s' : string) (now : Z) (cb : Breakers) :
  s ≠ s' → (isCircuitOpen s now cb).2 !! s' = cb !! s'.
Proof.
  intros Hne. unfold isCircuitOpen.
  destruct (cb !! s) as [b|]; [|done].
  destruct (isOpen b && _); simpl; [|done].
  by rewrite lookup_insert_ne.
Qed.

Lemma gate_lookup (s : string) (now : Z) (cb : Breakers) (b : Breaker) :
  cb !! s = Some b →
  (isCircuitOpen s now cb).2 !! s =
    Some (if isOpen b && (coolDown <? now - lastFailure b)
          then {| failures := failures b; isOpen := false; isHalfOpen := true;
                  lastFailure := lastFailure b |}
          else b).
Proof.
  intros Hb. unfold isCircuitOpen. rewrite Hb.
  destruct (isOpen b && _); simpl; [|done].
  by rewrite lookup_insert_eq.
Qed.

Lemma gate_lookup_None (s s' : string) (now : Z) (cb : Breakers) :
  cb !! s' = None → (isCircuitOpen s now cb).2 !! s' = None.
Proof.
  intros Hn. destruct (decide (s = s')) as [->|Hne].
  - unfold isCircuitOpen. by rewrite Hn.
  - by rewrite gate_lookup_ne.
Qed.

Lemma failure_lookup (s : string) (now : Z) (cb : Breakers) :
  recordFailure s now cb !! s =
    Some (let b := breakerOf s cb in
          if threshold <=? failures b + 1
          then {| failures := failures b + 1; isOpen := true; isHalfOpen := false;
                  lastFailure := now |}
          else {| failures := failures b + 1; isOpen := isOpen b;
                  isHalfOpen := isHalfOpen b; lastFailure := now |}).
Proof. unfold recordFailure, breakerOf. by rewrite lookup_insert_eq. Qed.

Lemma failure_lookup_ne (s s' : string) (now : Z) (cb : Breakers) :
  s ≠ s' → recordFailure s now cb !! s' = cb !! s'.
Proof. intros Hne. unfold recordFailure. by rewrite lookup_insert_ne. Qed.

Lemma reset_lookup (s : string) (cb : Breakers) :
  resetCircuitBreaker s cb !! s =
    (λ b, {| failures := 0; isOpen := false; isHalfOpen := false;
             lastFailure := lastFailure b |}) <$> cb !! s.
Proof.
  unfold resetCircuitBreaker. destruct (cb !! s) as [b|] eqn:Hb; simpl.
  - by rewrite lookup_insert_eq.
  - by rewrite Hb.
Qed.

Lemma reset_lookup_ne (s s' : string) (cb : Breakers) :
  s ≠ s' → resetCircuitBreaker s cb !! s' = cb !! s'.
Proof.
  intros Hne. unfold resetCircuitBreaker.
  destruct (cb !! s); [|done]. by rewrite lookup_insert_ne.
Qed.

(** What one operation does to the record of one service. *)
Lemma applyOp_lookup (op : Op) (cb : Breakers) (s : string) (b' : Breaker) :
  applyOp op cb !! s = Some b' →
  cb !! s = Some b' ∨
  (∃ b now, op = OpGate s now ∧ cb !! s = Some b ∧ isOpen b = true ∧
            coolDown < now - lastFailure b ∧
            b' = {| failures := failures b; isOpen := false; isHalfOpen := true;
                    lastFailure := lastFailure b |}) ∨
  (∃ now, op = OpFailure s now ∧ failures b' = failures (breakerOf s cb) + 1 ∧
          lastFailure b' = now ∧
          (if threshold <=? failures b'
           then isOpen b' = true ∧ isHalfOpen b' = false
           else isOpen b' = isOpen (breakerOf s cb) ∧
                isHalfOpen b' = isHalfOpen (breakerOf s cb))) ∨
  (∃ b, op = OpReset s ∧ cb !! s = Some b ∧
        b' = {| failures := 0; isOpen := false; isHalfOpen := false;
                lastFailure := lastFailure b |}).
Proof.
  destruct op as [s0 now|s0 now|s0|]; simpl; intros Hb'.
  - destruct (decide (s0 = s)) as [->|Hne]; [|rewrite gate_lookup_ne in Hb'; auto].
    destruct (cb !! s) as [b|] eqn:Hb;
      [|by rewrite (gate_lookup_None s s now cb Hb) in Hb'].
    rewrite (gate_lookup s now cb b Hb) in Hb'.
    destruct (isOpen b) eqn:Ho; simpl in Hb'; [|left; congruence].
    destruct (coolDown <? now - lastFailure b) eqn:Hc; [|left; congruence].
    right; left. exists b, now. apply Z.ltb_lt in Hc. naive_solver.
  - destruct (decide (s0 = s)) as [->|Hne]; [|rewrite failure_lookup_ne in Hb'; auto].
    rewrite failure_lookup in Hb'. simpl in Hb'.
    right; right; left. exists now.
    destruct (threshold <=? failures (breakerOf s cb) + 1) eqn:Ht;
      injection Hb' as <-; simpl; rewrite Ht; auto.
  - destruct (decide (s0 = s)) as [->|Hne]; [|rewrite reset_lookup_ne in Hb'; auto].
    rewrite reset_lookup in Hb'.
    destruct (cb !! s) as [b|]; simpl in Hb'; [|done].
    right; right; right. exists b. naive_solver.
  - by left.
Qed.

Lemma breakerOf_lookup (s : string) (cb : Breakers) (b : Breaker) :
  cb !! s = Some b → breakerOf s cb = b.
Proof. unfold breakerOf. by intros ->. Qed.

Lemma breakerOf_ok (s : string) (cb : Breakers) :
  breakersOk cb → breakerOk (breakerOf s cb) = true.
Proof.
  intros Hok. unfold breakerOf. destruct (cb !! s) as [b|] eqn:Hb; simpl.
  - exact (Hok s b Hb).
  - reflexivity.
Qed.

Lemma applyOp_ok (op : Op) (cb : Breakers) :
  breakersOk cb → breakersOk (applyOp op cb).
Proof.
  intros Hok s b' Hb'. simpl.
  pose proof (breakerOf_ok s cb Hok) as Hdef.
  destruct (applyOp_lookup op cb s b' Hb')
    as [Hsame|[(b & now & _ & Hb & _ & _ & ->)|[(now & _ & Hf & _ & Hfl)|(b & _ & Hb & ->)]]].
  - exact (Hok s b' Hsame).
  - specialize (Hok s b Hb). simpl in Hok. unfold breakerOk in *. simpl.
    apply andb_true_iff in Hok as [Hn _]. by rewrite Hn.
  - unfold breakerOk in *. apply andb_true_iff in Hdef as [Hn Hflags].
    apply Z.leb_le in Hn. apply andb_true_iff. split; [apply Z.leb_le; lia|].
    destruct (threshold <=? failures b'); destruct Hfl as [-> ->]; done.
  - reflexivity.
Qed.

Lemma reachable_ok (cb : Breakers) : reachable cb → breakersOk cb.
Proof.
  induction 1 as [|op cb _ IH].
  - intros s b Hb. by rewrite lookup_empty in Hb.
  - by apply applyOp_ok.
Qed.

(** A flag is set only on a record whose count has reached the threshold. *)
Definition flagsJustified (b : Breaker) : Prop :=
  isOpen b || isHalfOpen b = true → threshold ≤ failures b.

Lemma reachable_flags (cb : Breakers) :
  reachable cb → map_Forall (λ _ b, flagsJustified b) cb.
Proof.
  induction 1 as [|op cb _ IH].
  - intros s b Hb. by rewrite lookup_empty in Hb.
  - intros s b' Hb'. simpl.
    assert (flagsJustified (breakerOf s cb)) as Hdef.
    { unfold breakerOf. destruct (cb !! s) as [b|] eqn:Hb; simpl.
      - exact (IH s b Hb).
      - intros Hf. discriminate Hf. }
    destruct (applyOp_lookup op cb s b' Hb')
      as [Hsame|[(b & now & _ & Hb & Ho & _ & ->)|[(now & _ & Hf & _ & Hfl)|(b & _ & Hb & ->)]]].
    + exact (IH s b' Hsame).
    + specialize (IH s b Hb). simpl in IH. intros _. simpl.
      apply IH. by rewrite Ho.
    + intros Hflag. destruct (threshold <=? failures b') eqn:Ht.
      * by apply Z.leb_le.
      * destruct Hfl as [Ho Hh]. rewrite Ho, Hh in Hflag.
        specialize (Hdef Hflag). lia.
    + intros Hf. discriminate Hf.
Qed.

(** With a clock that never runs backwards, a record at or above the
    threshold is open unless its cool-down is over. *)
Lemma reachableAt_open (clock : Z) (cb : Breakers) :
  reachableAt clock cb →
  map_Forall (λ _ b, threshold ≤ failures b →
                     isOpen b = true ∨ lastFailure b + coolDown < clock) cb.
Proof.
  induction 1 as [clock|clock clock' op cb _ IH Hle Htime].
  - intros s b Hb. by rewrite lookup_empty in Hb.
  - intros s b' Hb'. simpl.
    destruct (applyOp_lookup op cb s b' Hb')
      as [Hsame|[(b & now & -> & Hb & Ho & Hc & ->)|[(now & -> & Hf & Hl & Hfl)|(b & _ & Hb & ->)]]].
    + intros Hth. destruct (IH s b' Hsame Hth); [by left|right; lia].
    + simpl. intros _. right.
      destruct (Htime now eq_refl). lia.
    + intros Hth. apply Z.leb_le in Hth. rewrite Hth in Hfl. by left; destruct Hfl.
    + simpl. unfold threshold. lia.
Qed.

(** C10: the flags [isOpen] and [isHalfOpen] are never both set and
    [failures] is never negative on any record the gateway can hold; the gate
    check, the recording of a failure and the reset after a success each keep
    that invariant. *)
Theorem breaker_invariant :
  (∀ s now cb, breakersOk cb → breakersOk (isCircuitOpen s now cb).2) ∧
  (∀ s now cb, breakersOk cb → breakersOk (recordFailure s now cb)) ∧
  (∀ s cb, breakersOk cb → breakersOk (resetCircuitBreaker s cb)) ∧
  (∀ cb, reachable cb → breakersOk cb).
Proof.
  repeat split.
  - intros s now cb. exact (applyOp_ok (OpGate s now) cb).
  - intros s now cb. exact (applyOp_ok (OpFailure s now) cb).
  - intros s cb. exact (applyOp_ok (OpReset s) cb).
  - exact reachable_ok.
Qed.

Lemma breaker_invariant_witness :
  breakersOk Samples.halfOpened ∧
  Samples.halfOpened !! "item-service" = Some Samples.halfOpenRecord.
Proof.
  split; [|reflexivity].
  destruct breaker_invariant as (_ & _ & _ & Hreach).
  apply Hreach.
  apply (reachable_step (OpGate "item-service" 31001)).
  apply (reachable_step (OpFailure "item-service" 1000)).
  apply (reachable_step (OpFailure "item-service" 900)).
  apply (reachable_step (OpFailure "item-service" 800)).
  exact reachable_init.
Defined.

(** C4: an open record becomes half-open only through the gate check of a
    request for that service; the check leaves it open (and answers [true])
    while at most 30000 ms have passed since the last failure, and demotes it
    (answering [false]) on the first check made later than that.  No other
    operation, the health-check timer included, sets the half-open flag. *)
Theorem half_open_only_by_gate (s : string) (cb : Breakers) (b : Breaker) :
  cb !! s = Some b →
  isOpen b = true →
  isHalfOpen b = false →
  (∀ now, now - lastFailure b ≤ 30000 → isCircuitOpen s now cb = (true, cb)) ∧
  (∀ now, 30000 < now - lastFailure b →
     isCircuitOpen s now cb =
       (false, <[s := {| failures := failures b; isOpen := false;
                         isHalfOpen := true; lastFailure := lastFailure b |}]> cb)) ∧
  (∀ op b', applyOp op cb !! s = Some b' → isHalfOpen b' = true →
     ∃ now, op = OpGate s now ∧ 30000 < now - lastFailure b).
Proof.
  intros Hb Ho Hh. repeat split.
  - intros now Hnow. unfold isCircuitOpen. rewrite Hb, Ho. simpl.
    assert ((coolDown <? now - lastFailure b) = false) as ->; [|done].
    apply Z.ltb_ge. unfold coolDown. lia.
  - intros now Hnow. unfold isCircuitOpen. rewrite Hb, Ho. simpl.
    assert ((coolDown <? now - lastFailure b) = true) as ->; [|done].
    apply Z.ltb_lt. unfold coolDown. lia.
  - intros op b' Hb' Hh'.
    destruct (applyOp_lookup op cb s b' Hb')
      as [Hsame|[(b0 & now & -> & Hb0 & _ & Hc & _)|[(now & _ & _ & _ & Hfl)|(b0 & _ & _ & ->)]]].
    + congruence.
    + exists now. split; [done|]. unfold coolDown in Hc. congruence.
    + rewrite (breakerOf_lookup s cb b Hb) in Hfl.
      destruct (threshold <=? failures b'); destruct Hfl; congruence.
    + discriminate Hh'.
Qed.

Lemma half_open_only_by_gate_witness :
  (∀ now, now - 1000 ≤ 30000 →
     isCircuitOpen "item-service" now Samples.threeFailures
     = (true, Samples.threeFailures)) ∧
  (∀ now, 30000 < now - 1000 →
     isCircuitOpen "item-service" now Samples.threeFailures
     = (false, <["item-service" := Samples.halfOpenRecord]> Samples.threeFailures)) ∧
  (∀ op b', applyOp op Samples.threeFailures !! "item-service" = Some b' →
     isHalfOpen b' = true → ∃ now, op = OpGate "item-service" now ∧ 30000 < now - 1000).
Proof.
  exact (half_open_only_by_gate "item-service" Samples.threeFailures
           Samples.openRecord eq_refl eq_refl eq_refl).
Defined.

End BreakerProps.

(** ** The proxy *)

Module ProxyProps.
Import Json Json.IntegerNumbers CircuitBreaker Proxy BreakerProps.

(** *** Path rewriting *)

Lemma stripPrefix_app (pat rest : string) : stripPrefix pat (pat +:+ rest) = Some rest.
Proof.
  induction pat as [|a pat IH]; simpl.
  - by destruct rest.
  - by rewrite Ascii.eqb_refl.
Qed.

Lemma replaceFirst_unfold (pat s : string) :
  replaceFirst pat s =
    match stripPrefix pat s with
    | Some rest => rest
    | None => match s with
              | EmptyString => EmptyString
              | String c s' => String c (replaceFirst pat s')
              end
    end.
Proof. by destruct s. Qed.

Lemma replaceFirst_app (pat rest : string) : replaceFirst pat (pat +:+ rest) = rest.
Proof. by rewrite replaceFirst_unfold, stripPrefix_app. Qed.

Lemma normalizeSuffix_segments (rest : string) :
  startsWithSlash rest = true → rest ≠ "/" → normalizeSuffix rest = rest.
Proof.
  intros Hs Hne. unfold normalizeSuffix. rewrite Hs.
  destruct (String.eqb_spec rest "/") as [->|_]; [done|].
  destruct (String.eqb_spec rest "") as [->|_]; done.
Qed.

Lemma append_empty_r (s : string) : s +:+ "" = s.
Proof.
  induction s as [|c s IH]; [done|].
  change (String c (s +:+ "") = String c s). by rewrite IH.
Qed.

(** *** The two phases of [proxyByEntry] *)

Section WithNumbers.
Context {num : Type} `{JsNumber num}.
Variable discover : string → option ServiceInfo.
Variable listServices : list (string * json num).

Lemma proxyBegin_open entry (req : Request num) now cb :
  (isCircuitOpen (service entry) now cb).1 = true →
  proxyBegin discover listServices entry req now cb =
    ((isCircuitOpen (service entry) now cb).2, [],
     Answered (circuitOpenResponse (service entry))).
Proof.
  intros Hopen. unfold proxyBegin.
  destruct (isCircuitOpen (service entry) now cb) as [o cb']. simpl in *.
  by rewrite Hopen.
Qed.

Lemma proxyBegin_unknown entry (req : Request num) now cb :
  (isCircuitOpen (service entry) now cb).1 = false →
  discover (service entry) = None →
  proxyBegin discover listServices entry req now cb =
    ((isCircuitOpen (service entry) now cb).2,
     [EDiscover (service entry); EListServices],
     Answered (notFoundResponse (service entry) (fst <$> listServices))).
Proof.
  intros Hgate Hd. unfold proxyBegin.
  destruct (isCircuitOpen (service entry) now cb) as [o cb']. simpl in *.
  by rewrite Hgate, Hd.
Qed.

Lemma proxyBegin_forward entry (req : Request num) now cb svc :
  (isCircuitOpen (service entry) now cb).1 = false →
  discover (service entry) = Some svc →
  proxyBegin discover listServices entry req now cb =
    ((isCircuitOpen (service entry) now cb).2, [EDiscover (service entry)],
     AwaitAxios (proxyConfig svc entry req)).
Proof.
  intros Hgate Hd. unfold proxyBegin.
  destruct (isCircuitOpen (service entry) now cb) as [o cb']. simpl in *.
  by rewrite Hgate, Hd.
Qed.

(** A suspended request has passed the gate and found its service. *)
Lemma proxyBegin_await entry (req : Request num) now cb cfg :
  (proxyBegin discover listServices entry req now cb).2 = AwaitAxios cfg →
  (isCircuitOpen (service entry) now cb).1 = false ∧
  ∃ svc, discover (service entry) = Some svc ∧ cfg = proxyConfig svc entry req.
Proof.
  unfold proxyBegin.
  destruct (isCircuitOpen (service entry) now cb) as [[] cb']; simpl; [done|].
  destruct (discover (service entry)) as [svc|]; simpl; [|done].
  intros [= <-]. eauto.
Qed.

Lemma proxyByEntry_forward backend entry (req : Request num) t0 t1 cb svc :
  (isCircuitOpen (service entry) t0 cb).1 = false →
  discover (service entry) = Some svc →
  proxyByEntry discover listServices backend entry req t0 t1 cb =
    let cfg := proxyConfig svc entry req in
    let out := proxyResume entry t1 (axios cfg (backend cfg))
                 (isCircuitOpen (service entry) t0 cb).2 in
    (out.1, [EDiscover (service entry); EAxios cfg], out.2).
Proof.
  intros Hgate Hd. unfold proxyByEntry.
  rewrite (proxyBegin_forward entry req t0 cb svc Hgate Hd). simpl.
  by destruct (proxyResume _ _ _ _).
Qed.

(** The forwarded call resolves exactly on a status below 500. *)
Lemma axios_proxyConfig svc entry (req : Request num) st data :
  axios (proxyConfig svc entry req) (Responded st data) =
    if st <? 500 then Resolved st data
    else Rejected {| err_code := Some "ERR_BAD_RESPONSE";
                     err_message := "Request failed";
                     err_response := Some (st, data) |}.
Proof. reflexivity. Qed.

End WithNumbers.

(** *** The breaker as the proxy drives it *)

Lemma breakerOf_gate (s s' : string) (now : Z) (cb : Breakers) :
  failures (breakerOf s' (isCircuitOpen s now cb).2) = failures (breakerOf s' cb) ∧
  lastFailure (breakerOf s' (isCircuitOpen s now cb).2) = lastFailure (breakerOf s' cb).
Proof.
  unfold breakerOf. destruct (decide (s = s')) as [->|Hne].
  - destruct (cb !! s') as [b|] eqn:Hb.
    + rewrite (gate_lookup s' now cb b Hb). simpl.
      by destruct (isOpen b && _).
    + by rewrite (gate_lookup_None s' s' now cb Hb).
  - by rewrite gate_lookup_ne.
Qed.

Lemma breakerOf_gate_ne (s s' : string) (now : Z) (cb : Breakers) :
  s ≠ s' → breakerOf s' (isCircuitOpen s now cb).2 = breakerOf s' cb.
Proof. intros Hne. unfold breakerOf. by rewrite gate_lookup_ne. Qed.

Lemma breakerOf_reset (s : string) (cb : Breakers) :
  breakerOf s (resetCircuitBreaker s cb) =
    {| failures := 0; isOpen := false; isHalfOpen := false;
       lastFailure := lastFailure (breakerOf s cb) |}.
Proof.
  unfold breakerOf. rewrite reset_lookup. by destruct (cb !! s).
Qed.

Lemma breakerOf_reset_ne (s s' : string) (cb : Breakers) :
  s ≠ s' → breakerOf s' (resetCircuitBreaker s cb) = breakerOf s' cb.
Proof. intros Hne. unfold breakerOf. by rewrite reset_lookup_ne. Qed.

Lemma breakerOf_failure (s : string) (now : Z) (cb : Breakers) :
  breakerOf s (recordFailure s now cb) =
    if threshold <=? failures (breakerOf s cb) + 1
    then {| failures := failures (breakerOf s cb) + 1; isOpen := true;
            isHalfOpen := false; lastFailure := now |}
    else {| failures := failures (breakerOf s cb) + 1;
            isOpen := isOpen (breakerOf s cb);
            isHalfOpen := isHalfOpen (breakerOf s cb); lastFailure := now |}.
Proof. unfold breakerOf at 1. by rewrite failure_lookup. Qed.

(** C1: when a recorded failure brings the count of a service to 3 its record
    is open; three failures in a row open it from any state the gateway can
    hold; with a clock that does not run backwards a count of 3 or more within
    30000 ms of the last failure means the record is open; and while a record
    is open within that window, every request routed to the service is
    answered at once with status 503 and the service name, the registry and
    the backend are not called, and the map is left as it was. *)
Theorem open_circuit_blocks {num : Type} `{JsNumber num} :
  (∀ s now cb,
     3 ≤ failures (breakerOf s (recordFailure s now cb)) →
     breakerOf s (recordFailure s now cb) =
       {| failures := failures (breakerOf s cb) + 1; isOpen := true;
          isHalfOpen := false; lastFailure := now |}) ∧
  (∀ s t1 t2 t3 cb,
     breakersOk cb →
     isOpen (breakerOf s (recordFailure s t3 (recordFailure s t2
                            (recordFailure s t1 cb)))) = true) ∧
  (∀ clock cb s b,
     reachableAt clock cb → cb !! s = Some b →
     3 ≤ failures b → clock - lastFailure b ≤ 30000 → isOpen b = true) ∧
  (∀ discover listServices backend entry (req : Request num) t0 t1 cb b,
     cb !! service entry = Some b →
     isOpen b = true →
     t0 - lastFailure b ≤ 30000 →
     proxyBegin discover listServices entry req t0 cb =
       (cb, [], Answered (circuitOpenResponse (service entry))) ∧
     proxyByEntry discover listServices backend entry req t0 t1 cb =
       (cb, [], circuitOpenResponse (service entry)) ∧
     res_status (circuitOpenResponse (service entry) : Response num) = 503 ∧
     getProp (Some (res_json (circuitOpenResponse (service entry) : Response num)))
       "service" = Some (Some (JStr (service entry)))).
Proof.
  split; [|split; [|split]].
  - intros s now cb Hth. rewrite breakerOf_failure in Hth |- *.
    destruct (threshold <=? failures (breakerOf s cb) + 1) eqn:Ht; [done|].
    apply Z.leb_gt in Ht. simpl in Hth. unfold threshold in Ht. lia.
  - intros s t1 t2 t3 cb Hok.
    pose proof (breakerOf_ok s cb Hok) as Hb. unfold breakerOk in Hb.
    apply andb_true_iff in Hb as [Hn _]. apply Z.leb_le in Hn.
    rewrite !breakerOf_failure.
    repeat (match goal with
            | |- context [threshold <=? ?x] =>
                destruct (threshold <=? x) eqn:?; simpl in *
            end);
      try done;
      repeat match goal with
             | Hx : (threshold <=? _) = false |- _ => apply Z.leb_gt in Hx
             end;
      unfold threshold in *; lia.
  - intros clock cb s b Hreach Hb Hth Hc.
    destruct (reachableAt_open clock cb Hreach s b Hb) as [Ho|Hlate];
      [unfold threshold; lia|done|unfold coolDown in Hlate; lia].
  - intros discover listServices backend entry req t0 t1 cb b Hb Ho Hc.
    assert (isCircuitOpen (service entry) t0 cb = (true, cb)) as Hgate.
    { unfold isCircuitOpen. rewrite Hb, Ho. simpl.
      assert ((coolDown <? t0 - lastFailure b) = false) as ->; [|done].
      apply Z.ltb_ge. unfold coolDown. lia. }
    assert (proxyBegin discover listServices entry req t0 cb =
              (cb, [], Answered (circuitOpenResponse (service entry)))) as Hbegin.
    { rewrite proxyBegin_open; by rewrite Hgate. }
    split; [done|]. split; [|done].
    unfold proxyByEntry. by rewrite Hbegin.
Qed.

Lemma open_circuit_blocks_witness :
  ProxySamples.discover "item-service" = Some ProxySamples.itemService ∧
  Samples.threeFailures !! "item-service" = Some Samples.openRecord ∧
  proxyByEntry ProxySamples.discover ProxySamples.listServices
    ProxySamples.backend404 ProxySamples.itemsEntry ProxySamples.getItem42
    31000 31005 Samples.threeFailures =
  (Samples.threeFailures, [], circuitOpenResponse "item-service").
Proof.
  split; [reflexivity|]. split; [reflexivity|].
  destruct (open_circuit_blocks (num := option Z)) as (_ & _ & _ & Hblock).
  destruct (Hblock ProxySamples.discover ProxySamples.listServices
              ProxySamples.backend404 ProxySamples.itemsEntry
              ProxySamples.getItem42 31000 31005 Samples.threeFailures
              Samples.openRecord eq_refl eq_refl) as (_ & Hrun & _).
  - simpl. lia.
  - exact Hrun.
Defined.

(** C2: when a request is forwarded and the backend answers with a status
    below 500, the record of the service afterwards has zero failures and
    both flags cleared, and the client receives that answer; the reset made
    on resumption does so from every state of the map. *)
Theorem success_resets_breaker {num : Type} `{JsNumber num}
    discover listServices backend entry (req : Request num) t0 t1 cb cfg st data :
  (proxyBegin discover listServices entry req t0 cb).2 = AwaitAxios cfg →
  backend cfg = Responded st data →
  st < 500 →
  breakerOf (service entry)
    (proxyByEntry discover listServices backend entry req t0 t1 cb).1.1 =
    {| failures := 0; isOpen := false; isHalfOpen := false;
       lastFailure := lastFailure (breakerOf (service entry) cb) |} ∧
  (proxyByEntry discover listServices backend entry req t0 t1 cb).2 =
    {| res_status := st; res_json := data |} ∧
  (∀ cb0 now,
     breakerOf (service entry)
       (proxyResume entry now (axios cfg (backend cfg)) cb0).1 =
       {| failures := 0; isOpen := false; isHalfOpen := false;
          lastFailure := lastFailure (breakerOf (service entry) cb0) |}).
Proof.
  intros Hawait Hback Hst.
  destruct (proxyBegin_await discover listServices entry req t0 cb cfg Hawait)
    as (Hgate & svc & Hd & ->).
  assert (axios (proxyConfig svc entry req) (backend (proxyConfig svc entry req))
          = Resolved st data) as Hax.
  { rewrite Hback, axios_proxyConfig.
    by assert ((st <? 500) = true) as -> by (apply Z.ltb_lt; lia). }
  rewrite (proxyByEntry_forward discover listServices backend entry req t0 t1 cb svc
             Hgate Hd).
  simpl. rewrite Hax. simpl. split; [|split; [done|]].
  - rewrite breakerOf_reset.
    by destruct (breakerOf_gate (service entry) (service entry) t0 cb) as [_ ->].
  - intros cb0 now. simpl. apply breakerOf_reset.
Qed.

Lemma success_resets_breaker_witness :
  breakerOf "item-service"
    (proxyByEntry ProxySamples.discover ProxySamples.listServices
       ProxySamples.backend404 ProxySamples.itemsEntry ProxySamples.getItem42
       31001 31005 Samples.threeFailures).1.1 =
    {| failures := 0; isOpen := false; isHalfOpen := false; lastFailure := 1000 |} ∧
  (proxyByEntry ProxySamples.discover ProxySamples.listServices
     ProxySamples.backend404 ProxySamples.itemsEntry ProxySamples.getItem42
     31001 31005 Samples.threeFailures).2 =
    {| res_status := 404; res_json := ProxySamples.notFoundBody |}.
Proof.
  destruct (success_resets_breaker ProxySamples.discover ProxySamples.listServices
              ProxySamples.backend404 ProxySamples.itemsEntry
              ProxySamples.getItem42 31001 31005 Samples.threeFailures
              (proxyConfig ProxySamples.itemService ProxySamples.itemsEntry
                 ProxySamples.getItem42)
              404 ProxySamples.notFoundBody eq_refl eq_refl)
    as (Hrec & Hres & _).
  - lia.
  - split; [exact Hrec|exact Hres].
Defined.

(** C3: when the backend answers a forwarded request with a status from 400
    to 499, the client receives that status and body unchanged, the record of
    the service is reset (zero failures) instead of counting a failure, and
    no other record changes. *)
Theorem client_error_passes_through {num : Type} `{JsNumber num}
    discover listServices backend entry (req : Request num) t0 t1 cb svc st data :
  (isCircuitOpen (service entry) t0 cb).1 = false →
  discover (service entry) = Some svc →
  backend (proxyConfig svc entry req) = Responded st data →
  400 ≤ st < 500 →
  proxyByEntry discover listServices backend entry req t0 t1 cb =
    (resetCircuitBreaker (service entry) (isCircuitOpen (service entry) t0 cb).2,
     [EDiscover (service entry); EAxios (proxyConfig svc entry req)],
     {| res_status := st; res_json := data |}) ∧
  failures (breakerOf (service entry)
              (proxyByEntry discover listServices backend entry req t0 t1 cb).1.1) = 0 ∧
  (∀ s, s ≠ service entry →
     breakerOf s (proxyByEntry discover listServices backend entry req t0 t1 cb).1.1
     = breakerOf s cb).
Proof.
  intros Hgate Hd Hback Hst.
  assert (proxyByEntry discover listServices backend entry req t0 t1 cb =
    (resetCircuitBreaker (service entry) (isCircuitOpen (service entry) t0 cb).2,
     [EDiscover (service entry); EAxios (proxyConfig svc entry req)],
     {| res_status := st; res_json := data |})) as Hrun.
  { rewrite (proxyByEntry_forward discover listServices backend entry req t0 t1 cb
               svc Hgate Hd).
    simpl. rewrite Hback, axios_proxyConfig.
    by assert ((st <? 500) = true) as -> by (apply Z.ltb_lt; lia). }
  rewrite Hrun. simpl. split; [done|]. split.
  - by rewrite breakerOf_reset.
  - intros s Hne. rewrite breakerOf_reset_ne by done.
    by rewrite breakerOf_gate_ne.
Qed.

Lemma client_error_passes_through_witness :
  proxyByEntry ProxySamples.discover ProxySamples.listServices
    ProxySamples.backend404 ProxySamples.itemsEntry ProxySamples.getItem42
    500 505 (recordFailure "item-service" 400 (recordFailure "item-service" 300 ∅)) =
    (resetCircuitBreaker "item-service"
       (recordFailure "item-service" 400 (recordFailure "item-service" 300 ∅)),
     [EDiscover "item-service";
      EAxios (proxyConfig ProxySamples.itemService ProxySamples.itemsEntry
                ProxySamples.getItem42)],
     {| res_status := 404; res_json := ProxySamples.notFoundBody |}).
Proof.
  destruct (client_error_passes_through ProxySamples.discover
              ProxySamples.listServices ProxySamples.backend404
              ProxySamples.itemsEntry ProxySamples.getItem42 500 505
              (recordFailure "item-service" 400 (recordFailure "item-service" 300 ∅))
              ProxySamples.itemService 404 ProxySamples.notFoundBody)
    as (Hrun & _).
  - vm_compute. reflexivity.
  - reflexivity.
  - reflexivity.
  - lia.
  - exact Hrun.
Defined.

(** C7: when a routed request passes the gate and the registry does not know
    the service, the answer is status 503 with a message naming the service
    and the names of the registered services; no call is forwarded, no
    failure is recorded (the failure count and the last-failure time of every
    service stay as they were), and the answer differs from the ones the
    gateway builds for a transport failure and for an open circuit. *)
Theorem unknown_service_records_no_failure {num : Type} `{JsNumber num}
    discover listServices backend entry (req : Request num) t0 t1 cb :
  (isCircuitOpen (service entry) t0 cb).1 = false →
  discover (service entry) = None →
  proxyByEntry discover listServices backend entry req t0 t1 cb =
    ((isCircuitOpen (service entry) t0 cb).2,
     [EDiscover (service entry); EListServices],
     {| res_status := 503;
        res_json :=
          JObj [("success", JBool false);
                ("message", JStr ("Serviço " +:+ service entry +:+ " não encontrado"));
                ("availableServices", JArr (JStr <$> (fst <$> listServices)))] |}) ∧
  (∀ s,
     failures (breakerOf s
       (proxyByEntry discover listServices backend entry req t0 t1 cb).1.1)
     = failures (breakerOf s cb) ∧
     lastFailure (breakerOf s
       (proxyByEntry discover listServices backend entry req t0 t1 cb).1.1)
     = lastFailure (breakerOf s cb)) ∧
  (∀ err : AxiosError num,
     err_response err = None →
     (proxyByEntry discover listServices backend entry req t0 t1 cb).2
     ≠ errorResponse (service entry) err) ∧
  (proxyByEntry discover listServices backend entry req t0 t1 cb).2
  ≠ circuitOpenResponse (service entry).
Proof.
  intros Hgate Hd.
  assert (proxyByEntry discover listServices backend entry req t0 t1 cb =
    ((isCircuitOpen (service entry) t0 cb).2,
     [EDiscover (service entry); EListServices],
     notFoundResponse (service entry) (fst <$> listServices))) as Hrun.
  { unfold proxyByEntry.
    by rewrite (proxyBegin_unknown discover listServices entry req t0 cb Hgate Hd). }
  rewrite Hrun. simpl. split; [done|]. split; [|split].
  - intros s. apply breakerOf_gate.
  - intros err Hresp. unfold errorResponse. rewrite Hresp.
    destruct (_ || _); unfold notFoundResponse, unavailableResponse,
      internalErrorResponse; intros [=].
  - unfold notFoundResponse, circuitOpenResponse. intros [=].
Qed.

Lemma unknown_service_records_no_failure_witness :
  proxyByEntry ProxySamples.discoverNone ProxySamples.listServices
    ProxySamples.backendDown ProxySamples.itemsEntry ProxySamples.getItem42
    500 505 (recordFailure "item-service" 400 ∅) =
    (recordFailure "item-service" 400 ∅,
     [EDiscover "item-service"; EListServices],
     {| res_status := 503;
        res_json :=
          JObj [("success", JBool false);
                ("message", JStr "Serviço item-service não encontrado");
                ("availableServices", JArr [JStr "item-service"])] |}).
Proof.
  destruct (unknown_service_records_no_failure ProxySamples.discoverNone
              ProxySamples.listServices ProxySamples.backendDown
              ProxySamples.itemsEntry ProxySamples.getItem42 500 505
              (recordFailure "item-service" 400 ∅)) as (Hrun & _).
  - vm_compute. reflexivity.
  - reflexivity.
  - rewrite Hrun. vm_compute. reflexivity.
Defined.

(** C5, as the code has it: while a record is half-open the gate lets every
    request for the service through and leaves the record as it is (there is
    no limit of one probe); when a forwarded call then fails (a transport
    error, or a status of 500 or more), the record is open again with the time
    of that failure as its last failure, so the gate blocks for the 30000 ms
    that follow it. *)
Theorem half_open_failure_reopens {num : Type} `{JsNumber num}
    entry (cb : Breakers) (b : Breaker) :
  reachable cb →
  cb !! service entry = Some b →
  isOpen b = false →
  isHalfOpen b = true →
  (∀ now, isCircuitOpen (service entry) now cb = (false, cb)) ∧
  (∀ discover listServices (req : Request num) now svc,
     discover (service entry) = Some svc →
     proxyBegin discover listServices entry req now cb =
       (cb, [EDiscover (service entry)], AwaitAxios (proxyConfig svc entry req))) ∧
  (∀ svc (req : Request num) st data,
     500 ≤ st →
     ∃ err, axios (proxyConfig svc entry req) (Responded st data) = Rejected err) ∧
  (∀ t (err : AxiosError num),
     (proxyResume entry t (Rejected err) cb).1 !! service entry =
       Some {| failures := failures b + 1; isOpen := true; isHalfOpen := false;
               lastFailure := t |} ∧
     ∀ now, now - t ≤ 30000 →
       (isCircuitOpen (service entry) now
          (proxyResume entry t (Rejected err) cb).1).1 = true).
Proof.
  intros Hreach Hb Ho Hh.
  assert (∀ now, isCircuitOpen (service entry) now cb = (false, cb)) as Hgate.
  { intros now. unfold isCircuitOpen. by rewrite Hb, Ho. }
  assert (threshold ≤ failures b) as Hth.
  { apply (reachable_flags cb Hreach (service entry) b Hb). by rewrite Ho, Hh. }
  split; [done|]. split; [|split].
  - intros discover listServices req now svc Hd.
    rewrite (proxyBegin_forward discover listServices entry req now cb svc);
      by rewrite ?Hgate.
  - intros svc req st data Hst. rewrite axios_proxyConfig.
    assert ((st <? 500) = false) as -> by (apply Z.ltb_ge; lia). eauto.
  - intros t err. simpl.
    assert (recordFailure (service entry) t cb !! service entry =
              Some {| failures := failures b + 1; isOpen := true;
                      isHalfOpen := false; lastFailure := t |}) as Hrec.
    { rewrite failure_lookup, (breakerOf_lookup _ _ _ Hb). simpl.
      by assert ((threshold <=? failures b + 1) = true) as ->
        by (apply Z.leb_le; lia). }
    split; [done|].
    intros now Hnow. unfold isCircuitOpen. rewrite Hrec. simpl.
    by assert ((coolDown <? now - t) = false) as ->
      by (apply Z.ltb_ge; unfold coolDown; lia).
Qed.

Lemma half_open_failure_reopens_witness :
  Samples.halfOpened !! "item-service" = Some Samples.halfOpenRecord ∧
  (proxyResume ProxySamples.itemsEntry 40000
     (axios (proxyConfig ProxySamples.itemService ProxySamples.itemsEntry
               ProxySamples.getItem42)
        (ProxySamples.backendDown
           (proxyConfig ProxySamples.itemService ProxySamples.itemsEntry
              ProxySamples.getItem42)))
     Samples.halfOpened).1 !! "item-service" =
    Some {| failures := 4; isOpen := true; isHalfOpen := false;
            lastFailure := 40000 |}.
Proof.
  split; [reflexivity|].
  assert (reachable Samples.halfOpened) as Hreach.
  { apply (reachable_step (OpGate "item-service" 31001)).
    apply (reachable_step (OpFailure "item-service" 1000)).
    apply (reachable_step (OpFailure "item-service" 900)).
    apply (reachable_step (OpFailure "item-service" 800)).
    exact reachable_init. }
  destruct (half_open_failure_reopens (num := option Z) ProxySamples.itemsEntry
              Samples.halfOpened Samples.halfOpenRecord Hreach eq_refl eq_refl
              eq_refl) as (_ & _ & _ & Hfail).
  exact (proj1 (Hfail 40000
                  {| err_code := Some "ECONNREFUSED";
                     err_message := "connect ECONNREFUSED";
                     err_response := None |})).
Defined.

(** C5, as stated, fails: with the item service half-open, a request checked
    at time 40000 is let through to the backend and leaves the record
    half-open, and a second request checked at 40001, before the first call
    has settled, is let through as well. *)
Lemma half_open_admits_two_probes :
  proxyBegin ProxySamples.discover ProxySamples.listServices
    ProxySamples.itemsEntry ProxySamples.getItem42 40000 Samples.halfOpened =
    (Samples.halfOpened, [EDiscover "item-service"],
     AwaitAxios (proxyConfig ProxySamples.itemService ProxySamples.itemsEntry
                   ProxySamples.getItem42)) ∧
  proxyBegin ProxySamples.discover ProxySamples.listServices
    ProxySamples.itemsEntry ProxySamples.postItem 40001 Samples.halfOpened =
    (Samples.halfOpened, [EDiscover "item-service"],
     AwaitAxios (proxyConfig ProxySamples.itemService ProxySamples.itemsEntry
                   ProxySamples.postItem)).
Proof. split; vm_compute; reflexivity. Qed.

(** C6, as the code has it, for a request without query parameters that
    passes the gate and whose service is registered.  When the original URL
    is the rule's strip-prefix followed by [rest], the URL of the forwarded
    request is the backend base URL, the forward base and [rest] when [rest]
    starts with a slash and is more than that slash, and the backend base URL
    and the forward base alone when [rest] is empty or a lone slash; no
    [params] are set.  The method is the original one, the headers are the
    original ones without [host] and [content-length], and the original body
    is forwarded exactly when the method is POST, PUT or PATCH.  A request to
    /api/items/42 goes to the base URL followed by /items/42. *)
Theorem forwarded_request_rewritten {num : Type} `{JsNumber num}
    discover listServices entry (req : Request num) now cb svc rest :
  (isCircuitOpen (service entry) now cb).1 = false →
  discover (service entry) = Some svc →
  originalUrl req = strip entry +:+ rest →
  query req = [] →
  ∃ cfg,
    (proxyBegin discover listServices entry req now cb).2 = AwaitAxios cfg ∧
    (startsWithSlash rest = true → rest ≠ "/" →
       cfg_url cfg = url svc +:+ forwardBase entry +:+ rest) ∧
    (rest = "" ∨ rest = "/" → cfg_url cfg = url svc +:+ forwardBase entry) ∧
    cfg_params cfg = None ∧
    cfg_method cfg = method req ∧
    (∃ hs, cfg_headers cfg = Some hs ∧
           hs !! "host" = None ∧ hs !! "content-length" = None ∧
           ∀ k, k ≠ "host" → k ≠ "content-length" → hs !! k = headers req !! k) ∧
    (method req = "POST" ∨ method req = "PUT" ∨ method req = "PATCH" →
       cfg_data cfg = body req) ∧
    (method req ≠ "POST" → method req ≠ "PUT" → method req ≠ "PATCH" →
       cfg_data cfg = None) ∧
    (∀ base s,
       targetUrl {| url := base |}
         {| prefix := "/api/items"; service := s; strip := "/api/items";
            forwardBase := "/items" |} "/api/items/42" = base +:+ "/items/42").
Proof.
  intros Hgate Hd Hurl Hquery. exists (proxyConfig svc entry req).
  rewrite (proxyBegin_forward discover listServices entry req now cb svc Hgate Hd).
  assert (cfg_url (proxyConfig svc entry req) =
            url svc +:+ forwardBase entry +:+ normalizeSuffix rest) as Hcfg.
  { simpl. unfold targetUrl, targetPath. by rewrite Hurl, replaceFirst_app. }
  split; [done|]. rewrite Hcfg.
  split; [intros Hs Hne; by rewrite normalizeSuffix_segments|].
  split; [intros [->| ->]; by rewrite append_empty_r|].
  split; [simpl; by rewrite Hquery|].
  split; [done|].
  split.
  { exists (delete "content-length" (delete "host" (headers req))).
    split; [done|]. split; [|split].
    - rewrite lookup_delete_ne by done. apply lookup_delete_eq.
    - apply lookup_delete_eq.
    - intros k Hk1 Hk2. by rewrite !lookup_delete_ne. }
  split; [|split; [|done]].
  - simpl. by intros [-> | [-> | ->]].
  - intros Hpost Hput Hpatch. simpl. unfold hasBody.
    destruct (String.eqb_spec (method req) "POST"); [done|].
    destruct (String.eqb_spec (method req) "PUT"); [done|].
    by destruct (String.eqb_spec (method req) "PATCH").
Qed.

Lemma forwarded_request_rewritten_witness :
  (∃ cfg,
     (proxyBegin ProxySamples.discover ProxySamples.listServices
        ProxySamples.itemsEntry ProxySamples.getItem42 5 ∅).2 = AwaitAxios cfg ∧
     cfg_url cfg = "http://127.0.0.1:3002/items/42" ∧
     cfg_params cfg = None ∧
     cfg_method cfg = "GET" ∧
     cfg_data cfg = None) ∧
  (∃ cfg,
     (proxyBegin ProxySamples.discover ProxySamples.listServices
        ProxySamples.itemsEntry ProxySamples.postItem 5 ∅).2 = AwaitAxios cfg ∧
     cfg_url cfg = "http://127.0.0.1:3002/items" ∧
     cfg_method cfg = "POST" ∧
     cfg_data cfg = Some (JObj [("name", JStr "Arroz")])).
Proof.
  split.
  - destruct (forwarded_request_rewritten ProxySamples.discover
                ProxySamples.listServices ProxySamples.itemsEntry
                ProxySamples.getItem42 5 ∅ ProxySamples.itemService "/42")
      as (cfg & Hbegin & Hurl & _ & Hp & Hm & _ & _ & Hnone & _);
      [vm_compute; reflexivity|reflexivity|reflexivity|reflexivity|].
    exists cfg. split; [exact Hbegin|].
    split; [exact (Hurl eq_refl ltac:(discriminate))|].
    split; [exact Hp|]. split; [exact Hm|].
    apply Hnone; discriminate.
  - destruct (forwarded_request_rewritten ProxySamples.discover
                ProxySamples.listServices ProxySamples.itemsEntry
                ProxySamples.postItem 5 ∅ ProxySamples.itemService "")
      as (cfg & Hbegin & _ & Hurl & _ & Hm & _ & Hbody & _);
      [vm_compute; reflexivity|reflexivity|reflexivity|reflexivity|].
    exists cfg. split; [exact Hbegin|].
    split; [exact (Hurl (or_introl eq_refl))|].
    split; [exact Hm|].
    exact (Hbody (or_introl eq_refl)).
Defined.

(** C6, as stated, fails: for /api/items/ the stated formula gives the base
    URL followed by /items/, the forward base and the residual slash, and
    the code forwards to the base URL followed by /items. *)
Lemma rewrite_differs_from_spec_wording :
  targetUrl ProxySamples.itemService ProxySamples.itemsEntry "/api/items/"
    = "http://127.0.0.1:3002/items" ∧
  SpecWording.specTargetUrl ProxySamples.itemService ProxySamples.itemsEntry
    "/api/items/" = "http://127.0.0.1:3002/items/" ∧
  String.eqb
    (targetUrl ProxySamples.itemService ProxySamples.itemsEntry "/api/items/")
    (SpecWording.specTargetUrl ProxySamples.itemService ProxySamples.itemsEntry
       "/api/items/") = false.
Proof. repeat split; vm_compute; reflexivity. Qed.

End ProxyProps.

(** ** The aggregated endpoints *)

Module AggregatorProps.
Import Json Json.IntegerNumbers CircuitBreaker Proxy Aggregator.

Section WithNumbers.
Context {num : Type} `{JsNumber num}.

Lemma dataOrSelf_failed : dataOrSelf Failed = Some (JArr [] : json num).
Proof. reflexivity. Qed.

(** With the list branch failed the list segment is empty and the rest
    depends on the catalogue branches only. *)
Lemma respondDashboard_lists_failed timestamp (services : json num)
    itemsRes catsRes items sample cats :
  dataOrSelf itemsRes = Some items →
  sliceIfAny 5 items = Some sample →
  dataOrSelf catsRes = Some cats →
  respondDashboard timestamp services Failed itemsRes catsRes =
    ([EListServices],
     {| res_status := 200;
        res_json :=
          dashboardBody timestamp services
            (JObj [("totalLists", JNum (num_of_Z 0));
                   ("totalItems", JNum (num_of_Z 0));
                   ("purchasedItems", JNum (num_of_Z 0));
                   ("estimatedTotal", JNum (num_of_Z 0));
                   ("sample", JArr [])])
            (catalogSegment sample cats) |}).
Proof.
  intros Hi Hs Hc. unfold respondDashboard, settledInputs, dashboardPayload.
  rewrite dataOrSelf_failed, Hi, Hc. simpl. rewrite Hs. simpl.
  unfold listsSegment. simpl. by rewrite num_toFixed2_zero.
Qed.

(** When the endpoint answers 200, what it took from the three branches. *)
Lemma respondDashboard_ok timestamp (services : json num) r1 r2 r3 :
  res_status (respondDashboard timestamp services r1 r2 r3).2 = 200 ↔
  ∃ lists items cats totals sample sampleItems,
    dataOrSelf r1 = Some lists ∧ dataOrSelf r2 = Some items ∧
    dataOrSelf r3 = Some cats ∧ summarize lists = Some totals ∧
    slice0 5 (Some lists) = Some sample ∧
    sliceIfAny 5 items = Some sampleItems.
Proof.
  unfold respondDashboard, settledInputs, dashboardPayload. split.
  - destruct (dataOrSelf r1) as [lists|]; cbn [mbind option_bind]; [|done].
    destruct (dataOrSelf r2) as [items|]; cbn [mbind option_bind]; [|done].
    destruct (dataOrSelf r3) as [cats|]; cbn [mbind option_bind]; [|done].
    destruct (summarize lists) as [totals|] eqn:Ht; cbn [mbind option_bind];
      [|done].
    cbn [snd].
    destruct (slice0 5 (Some lists)) as [sample|] eqn:Hs;
      cbn [mbind option_bind]; [|done].
    destruct (sliceIfAny 5 items) as [sampleItems|] eqn:Hsi;
      cbn [mbind option_bind]; [|done].
    intros _. exists lists, items, cats, totals, sample, sampleItems.
    repeat split; done.
  - intros (lists & items & cats & totals & sample & sampleItems
            & -> & -> & -> & Ht & Hs & Hsi).
    cbn [mbind option_bind]. rewrite Ht. cbn [mbind option_bind snd].
    rewrite Hs. cbn [mbind option_bind]. by rewrite Hsi.
Qed.

(** A failed branch never turns an answer of 200 into an error. *)
Lemma respondDashboard_failure_tolerated timestamp (services : json num) r1 r2 r3 :
  res_status (respondDashboard timestamp services r1 r2 r3).2 = 200 →
  res_status (respondDashboard timestamp services Failed r2 r3).2 = 200 ∧
  res_status (respondDashboard timestamp services r1 Failed r3).2 = 200 ∧
  res_status (respondDashboard timestamp services r1 r2 Failed).2 = 200.
Proof.
  intros Hok. apply respondDashboard_ok in Hok
    as (lists & items & cats & totals & sample & sampleItems
        & Hl & Hi & Hc & Ht & Hs & Hsi).
  repeat split; apply respondDashboard_ok.
  - exists (JArr []), items, cats,
      {| totalLists := num_of_Z 0; totalItems := num_of_Z 0;
         purchasedItems := num_of_Z 0; estimatedTotal := num_of_Z 0 |},
      (JArr []), sampleItems.
    repeat split; done.
  - exists lists, (JArr []), cats, totals, sample, (JArr []).
    repeat split; done.
  - exists lists, items, (JArr []), totals, sample, sampleItems.
    repeat split; done.
Qed.

End WithNumbers.

(** X20: for a dashboard request carrying a non-empty Authorization header,
    when the promise of the call for the caller's lists rejects (unknown
    service, transport error, timeout or a status of 500 or more) and the two
    catalogue calls are fulfilled with payloads that can be read and sliced,
    the answer is status 200 with success true, list totals all zero, an
    empty list sample, and the catalogue segment built from the two fulfilled
    calls.  Replacing any one settled branch by a rejected one never turns
    an answer of 200 into an error. *)
Theorem dashboard_tolerates_lists_failure {num : Type} `{JsNumber num}
    discover listServices backend timestamp (req : Request num) authHeader
    log1 log2 log3 vi vc items sample cats :
  authorization req = Some authHeader →
  authHeader ≠ "" →
  callService discover backend (listsCall authHeader) = (log1, Failed) →
  callService discover backend itemsCall = (log2, Fulfilled vi) →
  callService discover backend categoriesCall = (log3, Fulfilled vc) →
  dataOrSelf (Fulfilled vi) = Some items →
  sliceIfAny 5 items = Some sample →
  dataOrSelf (Fulfilled vc) = Some cats →
  getDashboard discover listServices backend timestamp req =
    (log1 ++ log2 ++ log3 ++ [EListServices],
     {| res_status := 200;
        res_json :=
          JObj [("success", JBool true);
                ("data",
                 JObj [("timestamp", JStr timestamp);
                       ("services", JObj listServices);
                       ("lists",
                        JObj [("totalLists", JNum (num_of_Z 0));
                              ("totalItems", JNum (num_of_Z 0));
                              ("purchasedItems", JNum (num_of_Z 0));
                              ("estimatedTotal", JNum (num_of_Z 0));
                              ("sample", JArr [])]);
                       ("catalog",
                        JObj [("sampleItems", sample);
                              ("categories", cats)])])] |}) ∧
  (∀ r1 r2 r3,
     res_status (respondDashboard timestamp (JObj listServices) r1 r2 r3).2 = 200 →
     res_status (respondDashboard timestamp (JObj listServices) Failed r2 r3).2 = 200 ∧
     res_status (respondDashboard timestamp (JObj listServices) r1 Failed r3).2 = 200 ∧
     res_status (respondDashboard timestamp (JObj listServices) r1 r2 Failed).2 = 200).
Proof.
  intros Hauth Hne Hl Hit Hct Hi Hs Hc. split.
  - unfold getDashboard. rewrite Hauth.
    destruct (String.eqb_spec authHeader "") as [->|_]; [done|].
    rewrite Hl, Hit, Hct.
    by rewrite (respondDashboard_lists_failed timestamp (JObj listServices)
                  (Fulfilled vi) (Fulfilled vc) items sample cats Hi Hs Hc).
  - intros r1 r2 r3. apply respondDashboard_failure_tolerated.
Qed.

Lemma dashboard_tolerates_lists_failure_witness :
  ProxySamples.discover "list-service" = None ∧
  (getDashboard ProxySamples.discover ProxySamples.listServices
     ProxySamples.catalogBackend "2025-01-01T00:00:00.000Z"
     ProxySamples.dashboardRequest).2 =
    {| res_status := 200;
       res_json :=
         JObj [("success", JBool true);
               ("data",
                JObj [("timestamp", JStr "2025-01-01T00:00:00.000Z");
                      ("services", JObj ProxySamples.listServices);
                      ("lists",
                       JObj [("totalLists", JNum (Some 0));
                             ("totalItems", JNum (Some 0));
                             ("purchasedItems", JNum (Some 0));
                             ("estimatedTotal", JNum (Some 0));
                             ("sample", JArr [])]);
                      ("catalog",
                       JObj [("sampleItems", JArr [JObj [("name", JStr "Arroz")]]);
                             ("categories", JArr [JStr "Alimentos"])])])] |}.
Proof.
  split; [reflexivity|].
  destruct (dashboard_tolerates_lists_failure ProxySamples.discover
              ProxySamples.listServices ProxySamples.catalogBackend
              "2025-01-01T00:00:00.000Z" ProxySamples.dashboardRequest "Bearer t"
              (callService ProxySamples.discover ProxySamples.catalogBackend
                 (listsCall "Bearer t")).1
              (callService ProxySamples.discover ProxySamples.catalogBackend
                 itemsCall).1
              (callService ProxySamples.discover ProxySamples.catalogBackend
                 categoriesCall).1
              ProxySamples.itemsBody ProxySamples.categoriesBody
              (JArr [JObj [("name", JStr "Arroz")]])
              (JArr [JObj [("name", JStr "Arroz")]])
              (JArr [JStr "Alimentos"])) as (Hrun & _).
  - reflexivity.
  - discriminate.
  - reflexivity.
  - reflexivity.
  - reflexivity.
  - reflexivity.
  - reflexivity.
  - reflexivity.
  - rewrite Hrun. reflexivity.
Defined.

(** C8, which the code does not keep: a dashboard request with an
    Authorization header whose list call is answered by the list service with
    status 401 and an error envelope, while both catalogue calls succeed, is
    answered with status 500.  The list call is fulfilled with the envelope,
    an object, and reading its sample throws; the catalogue sample next to it
    is read through a guard. *)
Theorem dashboard_fails_on_list_client_error :
  SearchSamples.tokenRejectedBackend
    (callConfig {| url := "http://127.0.0.1:3002" |} (listsCall "Bearer t"))
  = Responded 401 SearchSamples.invalidTokenBody ∧
  (callService SearchSamples.discoverBoth SearchSamples.tokenRejectedBackend
     itemsCall).2 = Fulfilled ProxySamples.itemsBody ∧
  (callService SearchSamples.discoverBoth SearchSamples.tokenRejectedBackend
     categoriesCall).2 = Fulfilled ProxySamples.categoriesBody ∧
  (getDashboard SearchSamples.discoverBoth ProxySamples.listServices
     SearchSamples.tokenRejectedBackend "2025-01-01T00:00:00.000Z"
     ProxySamples.dashboardRequest).2 =
    {| res_status := 500;
       res_json := JObj [("success", JBool false);
                         ("message", JStr "Erro ao agregar dashboard")] |} ∧
  sliceIfAny 5 SearchSamples.invalidTokenBody
  = Some SearchSamples.invalidTokenBody ∧
  slice0 5 (Some SearchSamples.invalidTokenBody) = None.
Proof. repeat split; vm_compute; reflexivity. Qed.

(** C9: a global-search request whose [q] parameter is absent or the empty
    string is answered with status 400, and the gateway makes no call at all
    for it: neither a registry lookup nor a call to the item service or the
    list service. *)
Theorem search_requires_query {num : Type} `{JsNumber num}
    discover backend merge (req : Request num) :
  field "q" (query req) = None ∨ field "q" (query req) = Some (JStr "") →
  globalSearch discover backend merge req = ([], missingQueryResponse) ∧
  res_status (missingQueryResponse : Response num) = 400.
Proof.
  intros Hq. split; [|done]. unfold globalSearch.
  by destruct Hq as [-> | ->].
Qed.

Lemma search_requires_query_witness :
  globalSearch ProxySamples.discover ProxySamples.catalogBackend
    (λ _ _, Some JNull) ProxySamples.searchNoQuery = ([], missingQueryResponse) ∧
  globalSearch ProxySamples.discover ProxySamples.catalogBackend
    (λ _ _, Some JNull) ProxySamples.searchEmptyQuery = ([], missingQueryResponse).
Proof.
  split.
  - exact (proj1 (search_requires_query ProxySamples.discover
                    ProxySamples.catalogBackend (λ _ _, Some JNull)
                    ProxySamples.searchNoQuery (or_introl eq_refl))).
  - exact (proj1 (search_requires_query ProxySamples.discover
                    ProxySamples.catalogBackend (λ _ _, Some JNull)
                    ProxySamples.searchEmptyQuery (or_intror eq_refl))).
Defined.

End AggregatorProps.

(** * Further properties *)

(** ** The breaker map over time *)

Module BreakerExtras.
Import CircuitBreaker BreakerProps.

Lemma reachable_threshold_flagged (cb : Breakers) :
  reachable cb →
  map_Forall (λ _ b, threshold ≤ failures b → isOpen b || isHalfOpen b = true) cb.
Proof.
  induction 1 as [|op cb _ IH].
  - intros s b Hb. by rewrite lookup_empty in Hb.
  - intros s b' Hb'. simpl.
    destruct (applyOp_lookup op cb s b' Hb')
      as [Hsame|[(b & now & _ & Hb & _ & _ & ->)|[(now & _ & _ & _ & Hfl)|(b & _ & Hb & ->)]]].
    + exact (IH s b' Hsame).
    + intros _. reflexivity.
    + intros Hth. apply Z.leb_le in Hth. rewrite Hth in Hfl.
      destruct Hfl as [-> _]. done.
    + simpl. unfold threshold. lia.
Qed.

(** X1: on every map the gateway can hold, a record has one of its two
    flags set exactly when its failure count is 3 or more; a record that is
    neither open nor half-open has at most 2 failures. *)
Theorem flags_iff_threshold (cb : Breakers) (s : string) (b : Breaker) :
  reachable cb →
  cb !! s = Some b →
  (isOpen b || isHalfOpen b = true ↔ 3 ≤ failures b).
Proof.
  intros Hreach Hb. split.
  - intros Hflag. exact (reachable_flags cb Hreach s b Hb Hflag).
  - intros Hth. exact (reachable_threshold_flagged cb Hreach s b Hb Hth).
Qed.

Lemma flags_iff_threshold_witness :
  isOpen Samples.halfOpenRecord || isHalfOpen Samples.halfOpenRecord = true ↔
  3 ≤ failures Samples.halfOpenRecord.
Proof.
  apply (flags_iff_threshold Samples.halfOpened "item-service").
  - apply (reachable_step (OpGate "item-service" 31001)).
    apply (reachable_step (OpFailure "item-service" 1000)).
    apply (reachable_step (OpFailure "item-service" 900)).
    apply (reachable_step (OpFailure "item-service" 800)).
    exact reachable_init.
  - reflexivity.
Defined.

(** X2: records are created by [recordFailure] only and never removed: the
    gate check and the reset leave the set of services that have a record
    as it is (also for a service without one), and recording a failure adds
    the service to it. *)
Theorem records_created_by_failure_only (op : Op) (cb : Breakers) :
  dom (applyOp op cb) =
    match op with
    | OpFailure s _ => {[ s ]} ∪ dom cb
    | _ => dom cb
    end.
Proof.
  destruct op as [s now|s now|s|]; simpl.
  - unfold isCircuitOpen. destruct (cb !! s) as [b|] eqn:Hb; [|done].
    destruct (isOpen b && _); simpl; [|done].
    apply dom_insert_lookup_L. eauto.
  - unfold recordFailure. by rewrite dom_insert_L.
  - unfold resetCircuitBreaker. destruct (cb !! s) as [b|] eqn:Hb; [|done].
    apply dom_insert_lookup_L. eauto.
  - done.
Qed.

(** X3: only failures in a row open the circuit.  After a reset, two
    further failures leave the gate open to requests with a count of 2, and
    the third one closes it for the 30000 ms that follow. *)
Theorem success_restarts_the_count (s : string) (cb : Breakers) (t1 t2 t3 : Z) :
  failures (breakerOf s (recordFailure s t2 (recordFailure s t1
                           (resetCircuitBreaker s cb)))) = 2 ∧
  (∀ now, isCircuitOpen s now (recordFailure s t2 (recordFailure s t1
                                 (resetCircuitBreaker s cb))) =
          (false, recordFailure s t2 (recordFailure s t1
                                        (resetCircuitBreaker s cb)))) ∧
  (∀ now, now - t3 ≤ 30000 →
     (isCircuitOpen s now
        (recordFailure s t3 (recordFailure s t2 (recordFailure s t1
                               (resetCircuitBreaker s cb))))).1 = true).
Proof.
  assert (failures (breakerOf s (resetCircuitBreaker s cb)) = 0 ∧
          isOpen (breakerOf s (resetCircuitBreaker s cb)) = false) as [Hf Ho].
  { unfold breakerOf. rewrite reset_lookup. by destruct (cb !! s). }
  set (cb0 := resetCircuitBreaker s cb) in *.
  assert (breakerOf s (recordFailure s t1 cb0) =
            {| failures := 1; isOpen := false;
               isHalfOpen := isHalfOpen (breakerOf s cb0); lastFailure := t1 |})
    as H1.
  { unfold breakerOf at 1. rewrite failure_lookup. simpl. by rewrite Hf, Ho. }
  assert (recordFailure s t2 (recordFailure s t1 cb0) !! s =
            Some {| failures := 2; isOpen := false;
                    isHalfOpen := isHalfOpen (breakerOf s cb0);
                    lastFailure := t2 |}) as H2.
  { rewrite failure_lookup. simpl. by rewrite H1. }
  split; [|split].
  - unfold breakerOf at 1. by rewrite H2.
  - intros now. unfold isCircuitOpen. by rewrite H2.
  - intros now Hnow.
    assert (recordFailure s t3 (recordFailure s t2 (recordFailure s t1 cb0)) !! s =
              Some {| failures := 3; isOpen := true; isHalfOpen := false;
                      lastFailure := t3 |}) as H3.
    { rewrite failure_lookup. simpl. by rewrite (breakerOf_lookup _ _ _ H2). }
    unfold isCircuitOpen. rewrite H3. simpl.
    by assert ((coolDown <? now - t3) = false) as ->
      by (apply Z.ltb_ge; unfold coolDown; lia).
Qed.

End BreakerExtras.

(** ** The proxy: failures, recovery and isolation *)

Module ProxyExtras.
Import Json Json.IntegerNumbers CircuitBreaker Proxy Search BreakerProps ProxyProps.

Lemma failures_after_recorded (s : string) (now : Z) (cb : Breakers) :
  failures (breakerOf s (recordFailure s now cb)) = failures (breakerOf s cb) + 1 ∧
  lastFailure (breakerOf s (recordFailure s now cb)) = now.
Proof.
  rewrite breakerOf_failure.
  by destruct (threshold <=? failures (breakerOf s cb) + 1).
Qed.

(** X4: a forwarded call that the backend answers with a status of 500 or
    more counts as one failure of the service (count plus one, last failure
    at the time of the answer) and its status and body are relayed to the
    client as they are. *)
Theorem backend_error_relayed_and_counted {num : Type} `{JsNumber num}
    discover listServices backend entry (req : Request num) t0 t1 cb svc st data :
  (isCircuitOpen (service entry) t0 cb).1 = false →
  discover (service entry) = Some svc →
  backend (proxyConfig svc entry req) = Responded st data →
  500 ≤ st →
  proxyByEntry discover listServices backend entry req t0 t1 cb =
    (recordFailure (service entry) t1 (isCircuitOpen (service entry) t0 cb).2,
     [EDiscover (service entry); EAxios (proxyConfig svc entry req)],
     {| res_status := st; res_json := data |}) ∧
  failures (breakerOf (service entry)
              (proxyByEntry discover listServices backend entry req t0 t1 cb).1.1)
  = failures (breakerOf (service entry) cb) + 1 ∧
  lastFailure (breakerOf (service entry)
                 (proxyByEntry discover listServices backend entry req t0 t1 cb).1.1)
  = t1.
Proof.
  intros Hgate Hd Hback Hst.
  rewrite (proxyByEntry_forward discover listServices backend entry req t0 t1 cb svc
             Hgate Hd).
  simpl. rewrite Hback, axios_proxyConfig.
  assert ((st <? 500) = false) as -> by (apply Z.ltb_ge; lia).
  simpl. split; [done|].
  destruct (failures_after_recorded (service entry) t1
              (isCircuitOpen (service entry) t0 cb).2) as [-> ->].
  by destruct (breakerOf_gate (service entry) (service entry) t0 cb) as [-> _].
Qed.

Lemma backend_error_relayed_and_counted_witness :
  proxyByEntry ProxySamples.discover ProxySamples.listServices
    (λ _, Responded 502 ProxySamples.notFoundBody) ProxySamples.itemsEntry
    ProxySamples.getItem42 10 20 ∅ =
    (recordFailure "item-service" 20 ∅,
     [EDiscover "item-service";
      EAxios (proxyConfig ProxySamples.itemService ProxySamples.itemsEntry
                ProxySamples.getItem42)],
     {| res_status := 502; res_json := ProxySamples.notFoundBody |}).
Proof.
  destruct (backend_error_relayed_and_counted ProxySamples.discover
              ProxySamples.listServices
              (λ _, Responded 502 ProxySamples.notFoundBody)
              ProxySamples.itemsEntry ProxySamples.getItem42 10 20 ∅
              ProxySamples.itemService 502 ProxySamples.notFoundBody)
    as (Hrun & _).
  - reflexivity.
  - reflexivity.
  - reflexivity.
  - lia.
  - exact Hrun.
Defined.

(** X5: a forwarded call that ends in a transport error counts as one
    failure of the service.  The client gets status 503 with the service
    name and the error code when the code is ECONNREFUSED or ETIMEDOUT, and
    the generic status 500 with the error message for any other code or
    none. *)
Theorem transport_error_counted {num : Type} `{JsNumber num}
    discover listServices backend entry (req : Request num) t0 t1 cb svc code msg :
  (isCircuitOpen (service entry) t0 cb).1 = false →
  discover (service entry) = Some svc →
  backend (proxyConfig svc entry req) = TransportError code msg →
  (proxyByEntry discover listServices backend entry req t0 t1 cb).1 =
    (recordFailure (service entry) t1 (isCircuitOpen (service entry) t0 cb).2,
     [EDiscover (service entry); EAxios (proxyConfig svc entry req)]) ∧
  (proxyByEntry discover listServices backend entry req t0 t1 cb).2 =
    (if bool_decide (code = Some "ECONNREFUSED" ∨ code = Some "ETIMEDOUT")
     then {| res_status := 503;
             res_json :=
               JObj [("success", JBool false);
                     ("message", JStr ("Serviço " +:+ service entry +:+
                                       " indisponível"));
                     ("service", JStr (service entry));
                     ("error", JStr (default "" code))] |}
     else {| res_status := 500;
             res_json :=
               JObj [("success", JBool false);
                     ("message", JStr "Erro interno do gateway");
                     ("service", JStr "api-gateway");
                     ("error", JStr msg)] |}) ∧
  failures (breakerOf (service entry)
              (proxyByEntry discover listServices backend entry req t0 t1 cb).1.1)
  = failures (breakerOf (service entry) cb) + 1.
Proof.
  intros Hgate Hd Hback.
  rewrite (proxyByEntry_forward discover listServices backend entry req t0 t1 cb svc
             Hgate Hd).
  simpl. rewrite Hback. simpl. split; [done|]. split.
  - unfold errorResponse. simpl.
    case_bool_decide as Hcode.
    + by destruct Hcode as [-> | ->].
    + destruct code as [c|]; simpl; [|done].
      destruct (String.eqb_spec c "ECONNREFUSED") as [->|_];
        [exfalso; apply Hcode; by left|].
      destruct (String.eqb_spec c "ETIMEDOUT") as [->|_];
        [exfalso; apply Hcode; by right|].
      done.
  - destruct (failures_after_recorded (service entry) t1
                (isCircuitOpen (service entry) t0 cb).2) as [-> _].
    by destruct (breakerOf_gate (service entry) (service entry) t0 cb) as [-> _].
Qed.

Lemma transport_error_counted_witness :
  (proxyByEntry ProxySamples.discover ProxySamples.listServices
     ProxySamples.backendDown ProxySamples.itemsEntry ProxySamples.getItem42
     10 20 ∅).1 =
    (recordFailure "item-service" 20 ∅,
     [EDiscover "item-service";
      EAxios (proxyConfig ProxySamples.itemService ProxySamples.itemsEntry
                ProxySamples.getItem42)]) ∧
  res_status (proxyByEntry ProxySamples.discover ProxySamples.listServices
                ProxySamples.backendDown ProxySamples.itemsEntry
                ProxySamples.getItem42 10 20 ∅).2 = 503.
Proof.
  destruct (transport_error_counted ProxySamples.discover
              ProxySamples.listServices ProxySamples.backendDown
              ProxySamples.itemsEntry ProxySamples.getItem42 10 20 ∅
              ProxySamples.itemService (Some "ECONNREFUSED")
              "connect ECONNREFUSED") as (Hrun & Hres & _).
  - reflexivity.
  - reflexivity.
  - reflexivity.
  - split; [exact Hrun|]. rewrite Hres. reflexivity.
Defined.

(** X6: the records are kept per service: whatever happens to a request
    routed to one service (short-circuit, unknown service, success or
    failure), the record of every other service is left as it was. *)
Theorem other_services_untouched {num : Type} `{JsNumber num}
    discover listServices backend entry (req : Request num) t0 t1 cb s :
  s ≠ service entry →
  (proxyByEntry discover listServices backend entry req t0 t1 cb).1.1 !! s
  = cb !! s.
Proof.
  intros Hne. unfold proxyByEntry, proxyBegin.
  pose proof (gate_lookup_ne (service entry) s t0 cb (not_eq_sym Hne)) as Hg.
  destruct (isCircuitOpen (service entry) t0 cb) as [[] cb0]; simpl in *; [done|].
  destruct (discover (service entry)) as [svc|]; simpl; [|done].
  destruct (axios _ _); simpl.
  - by rewrite reset_lookup_ne.
  - by rewrite failure_lookup_ne.
Qed.

Lemma other_services_untouched_witness :
  (proxyByEntry ProxySamples.discover ProxySamples.listServices
     ProxySamples.backendDown ProxySamples.itemsEntry ProxySamples.getItem42
     10 20 (recordFailure "user-service" 5 ∅)).1.1 !! "user-service"
  = recordFailure "user-service" 5 ∅ !! "user-service".
Proof.
  apply (other_services_untouched ProxySamples.discover ProxySamples.listServices
           ProxySamples.backendDown ProxySamples.itemsEntry
           ProxySamples.getItem42 10 20 (recordFailure "user-service" 5 ∅)
           "user-service").
  discriminate.
Defined.

Lemma failing_request {num : Type} `{JsNumber num}
    discover listServices backend entry (req : Request num) t0 t1 cb svc :
  (isCircuitOpen (service entry) t0 cb).1 = false →
  discover (service entry) = Some svc →
  (∀ cfg, ∃ err, axios cfg (backend cfg) = Rejected err) →
  (proxyByEntry discover listServices backend entry req t0 t1 cb).1.1 =
    recordFailure (service entry) t1 (isCircuitOpen (service entry) t0 cb).2.
Proof.
  intros Hgate Hd Hfail.
  rewrite (proxyByEntry_forward discover listServices backend entry req t0 t1 cb svc
             Hgate Hd).
  simpl. by destruct (Hfail (proxyConfig svc entry req)) as [err ->].
Qed.

(** X7: with a backend whose every call fails, three requests served one
    after the other from a fresh gateway are all forwarded, and leave the
    service with one open record whose last failure is the time of the third
    failure; a fourth request within 30000 ms of it is answered with the
    circuit-open 503 without any lookup or call. *)
Theorem three_failures_trip_the_circuit {num : Type} `{JsNumber num}
    discover listServices backend entry (r1 r2 r3 r4 : Request num)
    g1 f1 g2 f2 g3 f3 g4 f4 svc :
  discover (service entry) = Some svc →
  (∀ cfg, ∃ err, axios cfg (backend cfg) = Rejected err) →
  g4 - f3 ≤ 30000 →
  (proxyByEntry discover listServices backend entry r3 g3 f3
     (proxyByEntry discover listServices backend entry r2 g2 f2
        (proxyByEntry discover listServices backend entry r1 g1 f1 ∅).1.1).1.1).1.1
  = {[ service entry := {| failures := 3; isOpen := true; isHalfOpen := false;
                           lastFailure := f3 |} ]} ∧
  proxyByEntry discover listServices backend entry r4 g4 f4
    {[ service entry := {| failures := 3; isOpen := true; isHalfOpen := false;
                           lastFailure := f3 |} ]}
  = ({[ service entry := {| failures := 3; isOpen := true; isHalfOpen := false;
                            lastFailure := f3 |} ]},
     [], circuitOpenResponse (service entry)).
Proof.
  intros Hd Hfail Hwin.
  set (s := service entry).
  assert (∀ (req : Request num) g f n lf,
            n + 1 < 3 ∨ n = 2 →
            (proxyByEntry discover listServices backend entry req g f
               {[ s := {| failures := n; isOpen := false; isHalfOpen := false;
                          lastFailure := lf |} ]}).1.1 =
            {[ s := {| failures := n + 1; isOpen := bool_decide (n = 2);
                       isHalfOpen := false; lastFailure := f |} ]}) as Hstep.
  { intros req g f n lf Hn.
    assert (isCircuitOpen s g
              {[ s := {| failures := n; isOpen := false; isHalfOpen := false;
                         lastFailure := lf |} ]} =
            (false, {[ s := {| failures := n; isOpen := false;
                               isHalfOpen := false; lastFailure := lf |} ]}))
      as Hg.
    { unfold isCircuitOpen. by rewrite lookup_singleton_eq. }
    rewrite (failing_request discover listServices backend entry req g f _ svc);
      [|by fold s; rewrite Hg|done|done].
    fold s. rewrite Hg. simpl. unfold recordFailure.
    rewrite lookup_singleton_eq. simpl. rewrite insert_singleton_eq.
    f_equal. destruct Hn as [Hn| ->].
    - assert ((threshold <=? n + 1) = false) as ->
        by (apply Z.leb_gt; unfold threshold; lia).
      by rewrite bool_decide_eq_false_2 by lia.
    - done. }
  assert ((proxyByEntry discover listServices backend entry r1 g1 f1 ∅).1.1 =
            {[ s := {| failures := 1; isOpen := false; isHalfOpen := false;
                       lastFailure := f1 |} ]}) as H1.
  { rewrite (failing_request discover listServices backend entry r1 g1 f1 ∅ svc);
      [|done..].
    unfold isCircuitOpen, recordFailure. rewrite !lookup_empty. simpl.
    by rewrite insert_empty. }
  split.
  - rewrite H1. rewrite (Hstep r2 g2 f2 1 f1) by lia.
    change (bool_decide (1 = 2)) with false. change (1 + 1) with 2.
    by rewrite (Hstep r3 g3 f3 2 f2) by lia.
  - assert (isCircuitOpen s g4
              {[ s := {| failures := 3; isOpen := true; isHalfOpen := false;
                         lastFailure := f3 |} ]} =
            (true, {[ s := {| failures := 3; isOpen := true;
                              isHalfOpen := false; lastFailure := f3 |} ]}))
      as Hg.
    { unfold isCircuitOpen. rewrite lookup_singleton_eq. simpl.
      by assert ((coolDown <? g4 - f3) = false) as ->
        by (apply Z.ltb_ge; unfold coolDown; lia). }
    unfold proxyByEntry. rewrite proxyBegin_open; fold s; by rewrite Hg.
Qed.

Lemma three_failures_trip_the_circuit_witness :
  proxyByEntry ProxySamples.discover ProxySamples.listServices
    ProxySamples.backendDown ProxySamples.itemsEntry ProxySamples.getItem42
    30000 30001
    {[ "item-service" := {| failures := 3; isOpen := true; isHalfOpen := false;
                            lastFailure := 25 |} ]}
  = ({[ "item-service" := {| failures := 3; isOpen := true; isHalfOpen := false;
                             lastFailure := 25 |} ]},
     [], circuitOpenResponse "item-service").
Proof.
  destruct (three_failures_trip_the_circuit ProxySamples.discover
              ProxySamples.listServices ProxySamples.backendDown
              ProxySamples.itemsEntry ProxySamples.getItem42
              ProxySamples.postItem ProxySamples.getItem42
              ProxySamples.getItem42 0 5 10 15 20 25 30000 30001
              ProxySamples.itemService) as (_ & Hfourth).
  - reflexivity.
  - intros cfg. eexists. reflexivity.
  - lia.
  - exact Hfourth.
Defined.

(** X8: recovery.  For an open record whose last failure is more than
    30000 ms old, the next request is forwarded, and when the backend answers
    it with a status below 500 the record ends closed with zero failures and
    its last-failure time kept; the client receives the backend's answer. *)
Theorem probe_success_closes_the_circuit {num : Type} `{JsNumber num}
    discover listServices backend entry (req : Request num) t0 t1
    (cb : Breakers) b svc st data :
  cb !! service entry = Some b →
  isOpen b = true →
  30000 < t0 - lastFailure b →
  discover (service entry) = Some svc →
  backend (proxyConfig svc entry req) = Responded st data →
  st < 500 →
  proxyByEntry discover listServices backend entry req t0 t1 cb =
    (<[service entry := {| failures := 0; isOpen := false; isHalfOpen := false;
                           lastFailure := lastFailure b |}]> cb,
     [EDiscover (service entry); EAxios (proxyConfig svc entry req)],
     {| res_status := st; res_json := data |}).
Proof.
  intros Hb Ho Hlate Hd Hback Hst.
  assert (isCircuitOpen (service entry) t0 cb =
            (false, <[service entry :=
                        {| failures := failures b; isOpen := false;
                           isHalfOpen := true; lastFailure := lastFailure b |}]> cb))
    as Hg.
  { unfold isCircuitOpen. rewrite Hb, Ho. simpl.
    by assert ((coolDown <? t0 - lastFailure b) = true) as ->
      by (apply Z.ltb_lt; unfold coolDown; lia). }
  rewrite (proxyByEntry_forward discover listServices backend entry req t0 t1 cb svc);
    [|by rewrite Hg|done].
  simpl. rewrite Hback, axios_proxyConfig.
  assert ((st <? 500) = true) as -> by (apply Z.ltb_lt; lia).
  rewrite Hg. simpl. unfold resetCircuitBreaker.
  rewrite lookup_insert_eq. simpl. by rewrite insert_insert_eq.
Qed.

Lemma probe_success_closes_the_circuit_witness :
  proxyByEntry ProxySamples.discover ProxySamples.listServices
    ProxySamples.backend404 ProxySamples.itemsEntry ProxySamples.getItem42
    31001 31002 Samples.threeFailures =
    (<["item-service" := {| failures := 0; isOpen := false; isHalfOpen := false;
                            lastFailure := 1000 |}]> Samples.threeFailures,
     [EDiscover "item-service";
      EAxios (proxyConfig ProxySamples.itemService ProxySamples.itemsEntry
                ProxySamples.getItem42)],
     {| res_status := 404; res_json := ProxySamples.notFoundBody |}).
Proof.
  apply (probe_success_closes_the_circuit ProxySamples.discover
           ProxySamples.listServices ProxySamples.backend404
           ProxySamples.itemsEntry ProxySamples.getItem42 31001 31002
           Samples.threeFailures Samples.openRecord ProxySamples.itemService
           404 ProxySamples.notFoundBody).
  - reflexivity.
  - reflexivity.
  - simpl. lia.
  - reflexivity.
  - reflexivity.
  - lia.
Defined.

(** X9: the path that is forwarded is the rule's forward base alone, or the
    forward base followed by a slash and at least one more character: it
    never ends in a slash added by the rewrite alone, and the normalisation
    of the residual changes nothing when applied twice. *)
Theorem forwarded_path_shape (entry : RouteEntry) (originalUrl : string) :
  (targetPath entry originalUrl = forwardBase entry ∨
   ∃ c rest, targetPath entry originalUrl =
               forwardBase entry +:+ String "/" (String c rest)) ∧
  (∀ suffix, normalizeSuffix (normalizeSuffix suffix) = normalizeSuffix suffix).
Proof.
  assert (∀ suffix, normalizeSuffix suffix = "" ∨
                    ∃ c rest, normalizeSuffix suffix = String "/" (String c rest))
    as Hshape.
  { intros suffix. unfold normalizeSuffix.
    destruct suffix as [|a suffix]; [by left|].
    simpl. destruct (Ascii.eqb_spec a "/") as [->|Hne].
    - destruct suffix as [|c rest]; [by left|].
      right. by exists c, rest.
    - change ("/" +:+ String a suffix) with (String "/" (String a suffix)).
      right. by exists a, suffix. }
  split.
  - unfold targetPath.
    destruct (Hshape (replaceFirst (strip entry) originalUrl))
      as [->|(c & rest & ->)].
    + left. apply append_empty_r.
    + right. by exists c, rest.
  - intros suffix. destruct (Hshape suffix) as [->|(c & rest & ->)]; [done|].
    reflexivity.
Qed.

Lemma includes_false_replaceFirst (pat s : string) :
  includes pat s = false → replaceFirst pat s = s.
Proof.
  induction s as [|c s IH]; rewrite replaceFirst_unfold; simpl.
  - by destruct (stripPrefix pat "").
  - destruct (stripPrefix pat (String c s)); [done|].
    intros Hs. by rewrite IH.
Qed.

(** X10: when the rule's strip-prefix does not occur in the original URL
    with that exact spelling (a request that reached the route with another
    letter case, say), nothing is removed: the whole original URL, once
    normalised, is appended to the forward base. *)
Theorem unmatched_strip_keeps_whole_url (svc : ServiceInfo) (entry : RouteEntry)
    (originalUrl : string) :
  includes (strip entry) originalUrl = false →
  replaceFirst (strip entry) originalUrl = originalUrl ∧
  targetUrl svc entry originalUrl =
    url svc +:+ forwardBase entry +:+ normalizeSuffix originalUrl.
Proof.
  intros Hnone. unfold targetUrl, targetPath.
  by rewrite includes_false_replaceFirst.
Qed.

Lemma unmatched_strip_keeps_whole_url_witness :
  replaceFirst "/api/items" "/API/items/7" = "/API/items/7" ∧
  targetUrl ProxySamples.itemService ProxySamples.itemsEntry "/API/items/7" =
    "http://127.0.0.1:3002/items/API/items/7".
Proof.
  exact (unmatched_strip_keeps_whole_url ProxySamples.itemService
           ProxySamples.itemsEntry "/API/items/7" eq_refl).
Defined.

(** X21: for a request whose original URL is the rule's strip-prefix, a
    residual path and a query string, and whose parsed query is not empty,
    the forwarded request carries the query in two places: verbatim at the
    end of its URL and again, parsed, as its [params]. *)
Theorem query_forwarded_twice {num : Type} `{JsNumber num}
    svc entry (req : Request num) path qs :
  originalUrl req = strip entry +:+ path +:+ "?" +:+ qs →
  startsWithSlash path = true →
  query req ≠ [] →
  cfg_url (proxyConfig svc entry req) =
    url svc +:+ forwardBase entry +:+ path +:+ "?" +:+ qs ∧
  cfg_params (proxyConfig svc entry req) = Some (query req).
Proof.
  intros Hurl Hs Hq. split.
  - simpl. unfold targetUrl, targetPath. rewrite Hurl, replaceFirst_app.
    rewrite normalizeSuffix_segments; [done| |].
    + by destruct path.
    + destruct path as [|c [|c' p]]; [done| |]; intros [=].
  - simpl. by destruct (query req).
Qed.

Lemma query_forwarded_twice_witness :
  cfg_url (proxyConfig ProxySamples.itemService ProxySamples.itemsEntry
             SearchSamples.getItem42Limit) =
    "http://127.0.0.1:3002/items/42?limit=5" ∧
  cfg_params (proxyConfig ProxySamples.itemService ProxySamples.itemsEntry
                SearchSamples.getItem42Limit) = Some [("limit", JStr "5")].
Proof.
  apply (query_forwarded_twice ProxySamples.itemService ProxySamples.itemsEntry
           SearchSamples.getItem42Limit "/42" "limit=5").
  - reflexivity.
  - reflexivity.
  - discriminate.
Defined.

End ProxyExtras.

(** ** The aggregated endpoints beyond the dashboard's happy path *)

Module AggregatorExtras.
Import Json Json.IntegerNumbers CircuitBreaker Proxy Aggregator Search.

(** X11: a [callService] promise is fulfilled exactly when the service is
    registered and the backend answers with a status below 500, and its
    value is then the body of that answer, whatever the status: a 4xx answer
    is a fulfilled call, while an unknown service, a transport error or a
    status of 500 or more makes it fail. *)
Theorem callService_fulfilled_iff {num : Type} `{JsNumber num}
    discover backend (c : Call) (data : json num) :
  (callService discover backend c).2 = Fulfilled data ↔
  ∃ svc st, discover (call_service c) = Some svc ∧
            backend (callConfig svc c) = Responded st data ∧ st < 500.
Proof.
  unfold callService.
  destruct (discover (call_service c)) as [svc|]; simpl.
  - unfold axios.
    destruct (backend (callConfig svc c)) as [st d|code msg] eqn:Hb; simpl.
    + destruct (st <? 500) eqn:Hst.
      * split.
        -- intros [= ->]. exists svc, st. apply Z.ltb_lt in Hst. by repeat split.
        -- intros (svc' & st' & [= <-] & Hr & _). rewrite Hb in Hr.
           by injection Hr as _ ->.
      * split; [done|].
        intros (svc' & st' & [= <-] & Hr & Hlt). rewrite Hb in Hr.
        injection Hr as -> _. apply Z.ltb_ge in Hst. lia.
    + split; [done|].
      intros (svc' & st' & [= <-] & Hr & _). rewrite Hb in Hr. done.
  - split; [done|]. by intros (svc & st & Hd & _).
Qed.

(** X12: a dashboard request without an Authorization header, or with an
    empty one, is answered with status 401 and the gateway makes no call for
    it. *)
Theorem dashboard_requires_authorization {num : Type} `{JsNumber num}
    discover listServices backend timestamp (req : Request num) :
  authorization req = None ∨ authorization req = Some "" →
  getDashboard discover listServices backend timestamp req =
    ([], {| res_status := 401;
            res_json :=
              JObj [("success", JBool false);
                    ("message", JStr "Token de autenticação obrigatório")] |}).
Proof. unfold getDashboard. by intros [-> | ->]. Qed.

Lemma dashboard_requires_authorization_witness :
  getDashboard ProxySamples.discover ProxySamples.listServices
    ProxySamples.catalogBackend "2025-01-01T00:00:00.000Z"
    SearchSamples.dashboardNoAuth =
    ([], {| res_status := 401;
            res_json :=
              JObj [("success", JBool false);
                    ("message", JStr "Token de autenticação obrigatório")] |}).
Proof.
  exact (dashboard_requires_authorization ProxySamples.discover
           ProxySamples.listServices ProxySamples.catalogBackend
           "2025-01-01T00:00:00.000Z" SearchSamples.dashboardNoAuth
           (or_introl eq_refl)).
Defined.

(** X13: when the call for the caller's lists is fulfilled with a payload
    that is an object rather than an array (the error envelope of a 401, for
    one), the dashboard answers 500: the payload has no [slice]. *)
Theorem dashboard_rejects_object_payload {num : Type} `{JsNumber num}
    discover listServices backend timestamp (req : Request num) authHeader
    value fields :
  authorization req = Some authHeader →
  authHeader ≠ "" →
  (callService discover backend (listsCall authHeader)).2 = Fulfilled value →
  dataOrSelf (Fulfilled value) = Some (JObj fields) →
  (getDashboard discover listServices backend timestamp req).2 =
    {| res_status := 500;
       res_json := JObj [("success", JBool false);
                         ("message", JStr "Erro ao agregar dashboard")] |}.
Proof.
  intros Hauth Hne Hl Hdata. unfold getDashboard. rewrite Hauth.
  destruct (String.eqb_spec authHeader "") as [->|_]; [done|].
  destruct (callService discover backend (listsCall authHeader)) as [log1 r1].
  simpl in Hl. subst r1.
  destruct (callService discover backend itemsCall) as [log2 r2].
  destruct (callService discover backend categoriesCall) as [log3 r3].
  unfold respondDashboard, settledInputs. rewrite Hdata.
  cbn [mbind option_bind].
  destruct (dataOrSelf r2) as [items|]; cbn [mbind option_bind]; [|done].
  destruct (dataOrSelf r3) as [cats|]; cbn [mbind option_bind]; [|done].
  reflexivity.
Qed.

Lemma dashboard_rejects_object_payload_witness :
  res_status (getDashboard SearchSamples.discoverBoth ProxySamples.listServices
                SearchSamples.backend401 "2025-01-01T00:00:00.000Z"
                ProxySamples.dashboardRequest).2 = 500.
Proof.
  rewrite (dashboard_rejects_object_payload SearchSamples.discoverBoth
             ProxySamples.listServices SearchSamples.backend401
             "2025-01-01T00:00:00.000Z" ProxySamples.dashboardRequest "Bearer t"
             SearchSamples.invalidTokenBody
             [("success", JBool false); ("message", JStr "Token inválido")]).
  - reflexivity.
  - reflexivity.
  - discriminate.
  - reflexivity.
  - reflexivity.
Defined.

(** X14: with neither the list service nor the item service registered, an
    authorised dashboard request is still answered with status 200: all
    totals zero, empty samples and no category, after three failed lookups
    and no forwarded call. *)
Theorem dashboard_with_no_service {num : Type} `{JsNumber num}
    discover listServices backend timestamp (req : Request num) authHeader :
  authorization req = Some authHeader →
  authHeader ≠ "" →
  discover "list-service" = None →
  discover "item-service" = None →
  getDashboard discover listServices backend timestamp req =
    ([EDiscover "list-service"; EDiscover "item-service";
      EDiscover "item-service"; EListServices],
     {| res_status := 200;
        res_json :=
          JObj [("success", JBool true);
                ("data",
                 JObj [("timestamp", JStr timestamp);
                       ("services", JObj listServices);
                       ("lists",
                        JObj [("totalLists", JNum (num_of_Z 0));
                              ("totalItems", JNum (num_of_Z 0));
                              ("purchasedItems", JNum (num_of_Z 0));
                              ("estimatedTotal", JNum (num_of_Z 0));
                              ("sample", JArr [])]);
                       ("catalog",
                        JObj [("sampleItems", JArr []);
                              ("categories", JArr [])])])] |}).
Proof.
  intros Hauth Hne Hl Hi. unfold getDashboard. rewrite Hauth.
  destruct (String.eqb_spec authHeader "") as [->|_]; [done|].
  unfold callService. simpl. rewrite Hl, Hi. simpl.
  unfold respondDashboard, settledInputs, dashboardPayload, listsSegment. simpl.
  by rewrite num_toFixed2_zero.
Qed.

Lemma dashboard_with_no_service_witness :
  res_status (getDashboard ProxySamples.discoverNone ProxySamples.listServices
                ProxySamples.backendDown "2025-01-01T00:00:00.000Z"
                ProxySamples.dashboardRequest).2 = 200.
Proof.
  rewrite (dashboard_with_no_service ProxySamples.discoverNone
             ProxySamples.listServices ProxySamples.backendDown
             "2025-01-01T00:00:00.000Z" ProxySamples.dashboardRequest "Bearer t").
  - reflexivity.
  - reflexivity.
  - discriminate.
  - reflexivity.
  - reflexivity.
Defined.

Lemma addSummary_totalLists {num : Type} `{JsNumber num}
    (l : json num) (t t' : Totals) :
  addSummary l t = Some t' → totalLists t' = totalLists t.
Proof.
  unfold addSummary. intros Ht.
  apply bind_Some in Ht as (raw & _ & Ht).
  apply bind_Some in Ht as (ti & _ & Ht).
  apply bind_Some in Ht as (pi & _ & Ht).
  apply bind_Some in Ht as (et & _ & [= <-]). done.
Qed.

Lemma addSummaries_totalLists {num : Type} `{JsNumber num}
    (ls : list (json num)) (t t' : Totals) :
  addSummaries ls t = Some t' → totalLists t' = totalLists t.
Proof.
  revert t. induction ls as [|l ls IH]; intros t; simpl.
  - by intros [= <-].
  - intros Ht. apply bind_Some in Ht as (t1 & H1 & Ht).
    rewrite (IH t1 Ht). by apply (addSummary_totalLists l).
Qed.

(** X19: when the caller's lists arrive as an array and the dashboard
    answers 200, [totalLists] is the number of all the lists, whatever their
    summaries hold, while the sample carries the first five of them only. *)
Theorem dashboard_counts_every_list {num : Type} `{JsNumber num}
    timestamp (services : json num) r1 r2 r3 ls :
  dataOrSelf r1 = Some (JArr ls) →
  res_status (respondDashboard timestamp services r1 r2 r3).2 = 200 →
  ∃ totals sampleItems cats,
    totalLists totals = num_of_Z (Z.of_nat (length ls)) ∧
    res_json (respondDashboard timestamp services r1 r2 r3).2 =
      dashboardBody timestamp services
        (listsSegment totals (JArr (take 5 ls)))
        (catalogSegment sampleItems cats).
Proof.
  intros Hl Hok. unfold respondDashboard, settledInputs, dashboardPayload in *.
  rewrite Hl in *. cbn [mbind option_bind] in *.
  destruct (dataOrSelf r2) as [items|]; cbn [mbind option_bind] in *; [|done].
  destruct (dataOrSelf r3) as [cats|]; cbn [mbind option_bind] in *; [|done].
  destruct (summarize (JArr ls)) as [totals|] eqn:Ht;
    cbn [mbind option_bind snd] in *; [|done].
  change (slice0 5 (Some (JArr ls))) with (Some (JArr (take 5 ls))) in *.
  cbn [mbind option_bind] in *.
  destruct (sliceIfAny 5 items) as [sampleItems|];
    cbn [mbind option_bind res_json] in *; [|done].
  exists totals, sampleItems, cats. split; [|done].
  simpl in Ht. by rewrite (addSummaries_totalLists ls _ totals Ht).
Qed.

Lemma dashboard_counts_every_list_witness :
  ∃ totals sampleItems cats,
    totalLists totals = Some 2 ∧
    res_json (respondDashboard "2025-01-01T00:00:00.000Z"
                (JObj ProxySamples.listServices)
                (Fulfilled SearchSamples.twoListsBody) Failed Failed).2 =
      dashboardBody "2025-01-01T00:00:00.000Z" (JObj ProxySamples.listServices)
        (listsSegment totals (JArr (take 5 SearchSamples.twoLists)))
        (catalogSegment sampleItems cats).
Proof.
  destruct (dashboard_counts_every_list "2025-01-01T00:00:00.000Z"
              (JObj ProxySamples.listServices)
              (Fulfilled SearchSamples.twoListsBody) Failed Failed
              SearchSamples.twoLists) as (totals & sampleItems & cats & Ht & Hj).
  - reflexivity.
  - reflexivity.
  - exists totals, sampleItems, cats. split; [exact Ht|exact Hj].
Defined.

End AggregatorExtras.

(** ** Global search after the guard *)

Module SearchExtras.
Import Json Json.IntegerNumbers CircuitBreaker Proxy Aggregator Search.

Section WithNumbers.
Context {num : Type} `{JsNumber num}.
Variable toLowerCase : string → string.

Lemma filterHits_spec (term : string) (ls kept : list (json num)) :
  filterHits toLowerCase term ls = Some kept →
  kept = filter (λ l, listHit toLowerCase term l = Some true) ls ∧
  Forall (λ l, is_Some (listHit toLowerCase term l)) ls.
Proof.
  revert kept. induction ls as [|l ls IH]; intros kept; simpl.
  - intros [= <-]. by split.
  - destruct (listHit toLowerCase term l) as [hit|] eqn:Hhit; [|done].
    destruct (filterHits toLowerCase term ls) as [kept'|]; simpl; [|done].
    intros [= <-]. destruct (IH kept' eq_refl) as [-> Hall].
    split; [|constructor; eauto].
    rewrite filter_cons. destruct hit.
    + by rewrite decide_True by by rewrite Hhit.
    + by rewrite decide_False by (rewrite Hhit; discriminate).
Qed.

End WithNumbers.

(** X15: a search request with a query and no (or an empty) Authorization
    header issues the item-service search only; the list service is neither
    looked up nor called, and when the answer is 200 its list segment is
    empty with total 0. *)
Theorem search_without_identity {num : Type} `{JsNumber num}
    toLowerCase discover backend (req : Request num) qv :
  field "q" (query req) = Some qv →
  truthy (Some qv) = true →
  authorization req = None ∨ authorization req = Some "" →
  globalSearch discover backend (mergeSearch toLowerCase) req =
    let call := {| call_service := "item-service"; call_path := "/search";
                   call_method := "GET"; call_auth := None;
                   call_params := [("q", qv)]; call_data := None |} in
    let itemResults := itemResultsOf (callService discover backend call).2 in
    ((callService discover backend call).1,
     match slice0 20 (Some itemResults) with
     | Some results =>
         {| res_status := 200;
            res_json :=
              JObj [("success", JBool true);
                    ("data",
                     JObj [("query", qv);
                           ("items",
                            JObj (optField "total" (lengthOf itemResults) ++
                                  [("results", results)]));
                           ("lists",
                            JObj [("total", JNum (num_of_Z 0));
                                  ("results", JArr [])])])] |}
     | None => searchErrorResponse
     end).
Proof.
  intros Hq Htruthy Hauth. unfold globalSearch. rewrite Hq, Htruthy.
  assert (searchCalls qv (authorization req) =
            [ {| call_service := "item-service"; call_path := "/search";
                 call_method := "GET"; call_auth := None;
                 call_params := [("q", qv)]; call_data := None |} ]) as ->.
  { unfold searchCalls. by destruct Hauth as [-> | ->]. }
  unfold allSettled, mergeSearch.
  cbn -[slice0 itemResultsOf lengthOf callService]. rewrite app_nil_r.
  destruct (callService discover backend _) as [log itemsRes].
  cbn -[slice0 itemResultsOf lengthOf].
  by destruct (slice0 20 (Some (itemResultsOf itemsRes))).
Qed.

Lemma search_without_identity_witness :
  globalSearch ProxySamples.discover SearchSamples.searchBackend
    (mergeSearch SearchSamples.asciiLower) SearchSamples.searchArroz =
    ([EDiscover "item-service";
      EAxios (callConfig ProxySamples.itemService
                {| call_service := "item-service"; call_path := "/search";
                   call_method := "GET"; call_auth := None;
                   call_params := [("q", JStr "Arroz")]; call_data := None |})],
     {| res_status := 200;
        res_json :=
          JObj [("success", JBool true);
                ("data",
                 JObj [("query", JStr "Arroz");
                       ("items",
                        JObj [("total", JNum (Some 1));
                              ("results",
                               JArr [JObj [("name", JStr "Arroz Tipo 1")]])]);
                       ("lists",
                        JObj [("total", JNum (Some 0));
                              ("results", JArr [])])])] |}).
Proof.
  rewrite (search_without_identity SearchSamples.asciiLower ProxySamples.discover
             SearchSamples.searchBackend SearchSamples.searchArroz (JStr "Arroz")).
  - reflexivity.
  - reflexivity.
  - reflexivity.
  - left. reflexivity.
Defined.

(** X16: whenever the merge of the settled searches succeeds, the answer
    carries at most 20 item results and at most 10 list results, while the
    list total counts every matching list. *)
Theorem search_results_capped {num : Type} `{JsNumber num}
    toLowerCase (q : json num) itemsRes rest payload :
  mergeSearch toLowerCase q (itemsRes :: rest) = Some payload →
  ∃ results matches,
    slice0 20 (Some (itemResultsOf itemsRes)) = Some results ∧
    listMatchesOf toLowerCase q (head rest) = Some matches ∧
    payload =
      JObj [("success", JBool true);
            ("data",
             JObj [("query", q);
                   ("items",
                    JObj (optField "total" (lengthOf (itemResultsOf itemsRes)) ++
                          [("results", results)]));
                   ("lists",
                    JObj [("total", JNum (num_of_Z (Z.of_nat (length matches))));
                          ("results", JArr (take 10 matches))])])] ∧
    (∀ rs, results = JArr rs → (length rs ≤ 20)%nat) ∧
    (length (take 10 matches) ≤ 10)%nat.
Proof.
  unfold mergeSearch. intros Hm.
  apply bind_Some in Hm as (matches & Hmatches & Hm).
  apply bind_Some in Hm as (results & Hres & [= <-]).
  exists results, matches. repeat split; [done..| |].
  - intros rs ->. unfold slice0 in Hres.
    destruct (itemResultsOf itemsRes) as [| | | s|l|]; try done.
    injection Hres as <-. rewrite length_take. lia.
  - rewrite length_take. lia.
Qed.

Lemma search_results_capped_witness :
  ∃ results matches,
    slice0 20 (Some (itemResultsOf (Fulfilled SearchSamples.searchBody)))
      = Some results ∧
    listMatchesOf SearchSamples.asciiLower (JStr "Arroz") None = Some matches ∧
    (∀ rs, results = JArr rs → (length rs ≤ 20)%nat) ∧
    (length (take 10 matches) ≤ 10)%nat.
Proof.
  destruct (search_results_capped SearchSamples.asciiLower (JStr "Arroz")
              (Fulfilled SearchSamples.searchBody) []
              (JObj [("success", JBool true);
                     ("data",
                      JObj [("query", JStr "Arroz");
                            ("items",
                             JObj [("total", JNum (Some 1));
                                   ("results",
                                    JArr [JObj [("name", JStr "Arroz Tipo 1")]])]);
                            ("lists",
                             JObj [("total", JNum (Some 0));
                                   ("results", JArr [])])])]))
    as (results & matches & Hr & Hm & _ & Hcap & Hcap');
    [vm_compute; reflexivity|].
  exists results, matches. by repeat split.
Defined.

(** X17: the lists returned by the local filter are exactly the fetched
    lists, in their order, on which the callback answers true; the filter
    succeeds only if the callback throws on none of them.  A list that is an
    object with a string name and no [items] field is a hit exactly when the
    lower-cased name contains the term. *)
Theorem filter_keeps_the_hits {num : Type} `{JsNumber num}
    toLowerCase (term : string) (ls kept : list (json num)) :
  filterHits toLowerCase term ls = Some kept →
  kept = filter (λ l, listHit toLowerCase term l = Some true) ls ∧
  Forall (λ l, is_Some (listHit toLowerCase term l)) ls ∧
  (∀ fields name,
     field "name" fields = Some (JStr name) →
     field "items" fields = None →
     listHit toLowerCase term (JObj fields) =
       Some (includes term (toLowerCase name))).
Proof.
  intros Hf. destruct (filterHits_spec toLowerCase term ls kept Hf) as [Hk Hall].
  split; [done|]. split; [done|].
  intros fields name Hname Hitems. unfold listHit. simpl.
  rewrite Hname, Hitems. simpl. unfold lowerIncludes, jsOr. simpl.
  destruct (String.eqb_spec name "") as [->|_]; simpl;
    by rewrite orb_false_r.
Qed.

Lemma filter_keeps_the_hits_witness :
  filterHits SearchSamples.asciiLower "feij"
    [SearchSamples.feira; SearchSamples.mercado] = Some [SearchSamples.mercado] ∧
  [SearchSamples.mercado] =
    filter (λ l, listHit SearchSamples.asciiLower "feij" l = Some true)
      [SearchSamples.feira; SearchSamples.mercado].
Proof.
  split; [reflexivity|].
  apply (filter_keeps_the_hits SearchSamples.asciiLower "feij"
           [SearchSamples.feira; SearchSamples.mercado] [SearchSamples.mercado]).
  vm_compute. reflexivity.
Defined.

End SearchExtras.

(** ** The fallback error handler *)

Module ErrorExtras.
Import Json Proxy ErrorHandling.

(** X18: the error handler never answers with status 0 and never exposes
    the error's own message on a 500: a missing or zero status becomes 500,
    any other status is used as it is, and the message sent with a 500 is
    always the generic one. *)
Theorem internal_errors_stay_generic {num : Type} `{JsNumber num}
    (err : GatewayError) :
  res_status (errorHandler err : Response num) ≠ 0 ∧
  (∀ st, ge_status err = Some st → st ≠ 0 →
         res_status (errorHandler err : Response num) = st) ∧
  (ge_status err = None → res_status (errorHandler err : Response num) = 500) ∧
  (res_status (errorHandler err : Response num) = 500 →
   res_json (errorHandler err : Response num) =
     JObj [("success", JBool false);
           ("message", JStr "Erro interno do gateway");
           ("service", JStr "api-gateway")]).
Proof.
  unfold errorHandler, statusOf. simpl.
  destruct (ge_status err) as [st|]; simpl.
  - destruct (Z.eqb_spec st 0) as [->|Hne]; simpl.
    + split; [done|]. split; [by intros ? [= <-]|]. split; done.
    + split; [done|]. split; [by intros ? [= <-]|]. split; [done|].
      by intros ->.
  - split; [done|]. split; [done|]. split; done.
Qed.

End ErrorExtras.
